(** * The first-session engagement heuristic of the app shell

    A shallow embedding of [AppComponent] (app.component.ts): the usage
    classifier ([getCurVerAppUsedCount], [checkAppUsedBefore]), the
    navigation interceptor (the subscription to the router's
    [NavigationEnd] events), the share eligibility predicate
    ([shouldShowSocialSharingSheet]) and the theme resolver
    ([detectDarkTheme], [detectDarkThemeChange], [setDarkMode]).

    Further on come the head of the document ([updateMeta]), the uri of the
    tracked page views, and the sharing of the about page
    ([AboutComponent]).

    Left out, because no decision depends on them: the other logging, the
    CSS host class ([updateComponentClass]), the side navigation and the
    service-worker update check. *)

From Stdlib Require Import Ascii.
From stdpp Require Import base numbers strings pretty gmap list.

Local Open Scope Z_scope.
Local Open Scope string_scope.

(** ** JavaScript values the component computes with *)

Module Js.

(** A JavaScript number, as far as the component produces one: an integer
    or [NaN] (the result of [parseInt] on text without digits). Integers are
    taken exact; a double is exact on integers below 2^53, far above any
    usage counter. *)
Inductive number :=
  | Num (z : Z)
  | NaN.

(** [a < b]: false as soon as one side is [NaN]. *)
Definition lt (a b : number) : bool :=
  match a, b with
  | Num x, Num y => bool_decide (x < y)
  | _, _ => false
  end.

(** [a > b] *)
Definition gt (a b : number) : bool := lt b a.

(** [a === b] on numbers: [NaN] equals nothing. *)
Definition strict_eq (a b : number) : bool :=
  match a, b with
  | Num x, Num y => bool_decide (x = y)
  | _, _ => false
  end.

(** [a + b] on numbers. *)
Definition add (a b : number) : number :=
  match a, b with
  | Num x, Num y => Num (x + y)
  | _, _ => NaN
  end.

(** Truthiness, as tested by [if (v)] and [v && ...]. *)
Definition truthy_number (n : number) : bool :=
  match n with
  | Num z => negb (bool_decide (z = 0))
  | NaN => false
  end.

Definition truthy_string (s : string) : bool :=
  match s with
  | EmptyString => false
  | String _ _ => true
  end.

(** A nullable value [T | null | undefined] is an [option]; it is truthy when
    it is present and its content is. *)
Definition truthy {T} (content : T → bool) (v : option T) : bool :=
  match v with
  | Some x => content x
  | None => false
  end.

(** The template literal [`${n}`] for a number. *)
Definition to_string (n : number) : string :=
  match n with
  | Num z => pretty z
  | NaN => "NaN"
  end.

(** The template literal [`${b}`] for a boolean. *)
Definition bool_to_string (b : bool) : string :=
  if b then "true" else "false".

(** Strings are ASCII text. White space as [parseInt] skips it: TAB, LF, VT,
    FF, CR and SPACE. *)
Definition is_white_space (c : ascii) : bool :=
  let n := N_of_ascii c in
  (bool_decide (9 ≤ n ≤ 13)%N || bool_decide (n = 32)%N).

Definition digit_value (c : ascii) : option Z :=
  let n := N_of_ascii c in
  if bool_decide (48 ≤ n ≤ 57)%N then Some (Z.of_N n - 48) else None.

Fixpoint skip_white_space (s : string) : string :=
  match s with
  | String c r => if is_white_space c then skip_white_space r else s
  | EmptyString => s
  end.

(** The value of the longest prefix of decimal digits of [s], read after
    [acc]; [seen] tells whether a digit was read so far. Without any digit
    there is no value. *)
Fixpoint parse_digits (s : string) (seen : bool) (acc : Z) : option Z :=
  match s with
  | String c r =>
      match digit_value c with
      | Some d => parse_digits r true (10 * acc + d)
      | None => if seen then Some acc else None
      end
  | EmptyString => if seen then Some acc else None
  end.

(** [parseInt(s, 10)]: skip the leading white space, read one optional sign,
    then the longest prefix of decimal digits; [NaN] when that is empty. *)
Definition parseInt (s : string) : number :=
  let s1 := skip_white_space s in
  let '(sign, s2) :=
    match s1 with
    | String "-" r => (-1, r)
    | String "+" r => (1, r)
    | _ => (1, s1)
    end in
  match parse_digits s2 false 0 with
  | Some m => Num (sign * m)
  | None => NaN
  end.

(** [s.toLowerCase()] on ASCII text. [toLocaleLowerCase] differs from it
    only on the letter I (Turkic and Lithuanian locales), which never makes a
    string equal to ["dark"]. *)
Definition lower_char (c : ascii) : ascii :=
  let n := N_of_ascii c in
  if bool_decide (65 ≤ n ≤ 90)%N then ascii_of_N (n + 32) else c.

Fixpoint toLowerCase (s : string) : string :=
  match s with
  | String c r => String (lower_char c) (toLowerCase r)
  | EmptyString => EmptyString
  end.

End Js.

Import Js.

(** ** The persistent store

    [CacheService] of ng-cache, seen through the three types the component
    reads it at: [getItem<string>], [getItem<boolean>] and
    [getItem<number>]; the component uses every key at one type only. An
    absent key reads as [null], here [None]. *)

Record CacheService := mkCache {
  strItems : gmap string string;
  boolItems : gmap string bool;
  numItems : gmap string number;
}.

Definition emptyCache : CacheService := mkCache ∅ ∅ ∅.

Definition getItem_string (c : CacheService) (key : string) : option string :=
  strItems c !! key.
Definition getItem_boolean (c : CacheService) (key : string) : option bool :=
  boolItems c !! key.
Definition getItem_number (c : CacheService) (key : string) : option number :=
  numItems c !! key.

Definition setItem_string (key value : string) (c : CacheService) : CacheService :=
  mkCache (<[key := value]> (strItems c)) (boolItems c) (numItems c).
Definition setItem_boolean (key : string) (value : bool) (c : CacheService)
  : CacheService :=
  mkCache (strItems c) (<[key := value]> (boolItems c)) (numItems c).
Definition setItem_number (key : string) (value : number) (c : CacheService)
  : CacheService :=
  mkCache (strItems c) (boolItems c) (<[key := value]> (numItems c)).

(** ** The platform the component runs on *)

(** [navigator], as far as it is read: [navigator.onLine]. *)
Record Navigator := { onLine : bool }.

(** [window.matchMedia('(prefers-color-scheme: dark)')]: its [matches] and
    whether it has an [addEventListener] method. *)
Record MediaQueryList := { matches : bool; addEventListener : bool }.

Record Platform := {
  (** [isPlatformBrowser(platformId)] *)
  platformBrowser : bool;
  (** [Some] when [typeof navigator === 'object'] *)
  navigator : option Navigator;
  (** [Some] when [window.matchMedia('(prefers-color-scheme)').media] is not
      ['not all'], that is, when the platform knows the media feature *)
  prefersColorScheme : option MediaQueryList;
}.

(** The values [ConfigService.getValue] returns for the three keys read. *)
Record ConfigValues := {
  cfg_colorMode : option string;
  cfg_sponsorSectionVisible : option string;
  cfg_sponsors : option string;
}.

(** What the router hands to the subscriber after the [map] step. *)
Record RouteData := { pagePath : string; pageType : option string }.

(** Calls on collaborators that the interceptor makes. *)
Inductive Effect :=
  | RouterNavigate (commands : list string)
  | BottomSheetOpen.

(** The three branches of the interceptor's [if] chain. *)
Inductive Branch :=
  | FirstUseRedirect
  | SharePrompt
  | DefaultIncrement.

(** ** The about page

    [AboutComponent] (about.component.ts): sharing the application through
    the Web Share API, with the Facebook share dialog as the fallback. The
    promise of [navigator.share] is modelled by its outcome. The third
    argument of [window.open] (the window features, computed from the size
    of the window) is left out. *)

Module AboutComponent.

(** [AppConfig] and its [socialSharing] member, as far as they are read. *)
Record SocialSharing := {
  subject : option string;
  linkUrl : option string;
  message : option string;
}.

Record AppConfig := {
  appVersion : option string;
  facebookAppId : option string;
  socialSharing : option SocialSharing;
}.

Definition withSocialSharing (v : SocialSharing) (c : AppConfig) : AppConfig :=
  {| appVersion := appVersion c;
     facebookAppId := facebookAppId c;
     socialSharing := Some v |}.

(** How the promise returned by [navigator.share] settles; a rejection
    carries the message of its error when there is an error with one. *)
Inductive ShareOutcome :=
  | Fulfilled
  | Rejected (errMessage : option string).

(** Calls on collaborators, in the order they are made. *)
Inductive Call :=
  | NavigatorShare (title text url : option string)
  | TrackEvent (name method : string)
  | LogError (text : string)
  | WindowOpen (url target : string)
  | SnackBarOpen (text : string) (duration : Z).

Section Sharing.

(** The global [encodeURIComponent]. *)
Variable encodeURIComponent : string → string.

(** [v || ''] *)
Definition orEmpty (v : option string) : string :=
  match v with
  | Some s => s
  | None => ""
  end.

(** [this._appConfig.socialSharing = this._appConfig.socialSharing || {}] *)
Definition ensureSocialSharing (c : AppConfig) : AppConfig :=
  match socialSharing c with
  | Some _ => c
  | None => withSocialSharing {| subject := None; linkUrl := None; message := None |} c
  end.

Definition theSocialSharing (c : AppConfig) : SocialSharing :=
  match socialSharing c with
  | Some v => v
  | None => {| subject := None; linkUrl := None; message := None |}
  end.

Definition showThankYouMessage : list Call :=
  [SnackBarOpen "Thank you for sharing 😄." 3000].

Definition facebookUrl (c : AppConfig) : string :=
  let appId := orEmpty (facebookAppId c) in
  let socialSharingLink := orEmpty (linkUrl (theSocialSharing c)) in
  let socialSharingMessage := orEmpty (message (theSocialSharing c)) in
  "https://www.facebook.com/dialog/share?"
  +:+ "&app_id=" +:+ encodeURIComponent appId
  +:+ "&href=" +:+ encodeURIComponent socialSharingLink
  +:+ "&quote=" +:+ encodeURIComponent socialSharingMessage.

Definition shareTofacebook (c : AppConfig) : AppConfig * list Call :=
  let c1 := ensureSocialSharing c in
  (c1,
   ([WindowOpen (facebookUrl c1) "Facebook";
     TrackEvent "share" "Facebook Share Dialog"]
    ++ showThankYouMessage)%list).

(** [nativeShare] is [None] when [typeof navigator !== 'object'] or
    [navigator.share] is missing, and otherwise tells how the share
    settles. *)
Definition openSharing (nativeShare : option ShareOutcome) (c : AppConfig)
  : AppConfig * list Call :=
  let c1 := ensureSocialSharing c in
  let socialSharingSubject := subject (theSocialSharing c1) in
  let socialSharingLink := linkUrl (theSocialSharing c1) in
  let socialSharingMessage := message (theSocialSharing c1) in
  match nativeShare with
  | Some outcome =>
      let share :=
        NavigatorShare socialSharingSubject socialSharingMessage
          socialSharingLink in
      match outcome with
      | Fulfilled =>
          (c1,
           ([share; TrackEvent "share" "Web Share API"]
            ++ showThankYouMessage)%list)
      | Rejected errMessage =>
          let errMsg :=
            match errMessage with
            | Some m => if truthy_string m then " " +:+ m else ""
            | None => ""
            end in
          let '(c2, calls) := shareTofacebook c1 in
          (c2,
           ([share;
             LogError ("An error occurs when sharing via Web API." +:+ errMsg)]
            ++ calls)%list)
      end
  | None => shareTofacebook c1
  end.

Definition isThankYou (call : Call) : bool :=
  match call with
  | SnackBarOpen _ _ => true
  | _ => false
  end.

Definition isShareEvent (call : Call) : bool :=
  match call with
  | TrackEvent "share" _ => true
  | _ => false
  end.

Definition isWindowOpen (call : Call) : bool :=
  match call with
  | WindowOpen _ _ => true
  | _ => false
  end.

Definition isLogError (call : Call) : bool :=
  match call with
  | LogError _ => true
  | _ => false
  end.

End Sharing.

End AboutComponent.

(** ** The component *)

Section AppComponent.

(** [appSettings.appVersion] (shared/app-settings is not part of the sources
    at hand), the [Sponsor] interface and [JSON.parse] at the sponsor list
    ([None] when it throws). *)
Context {Sponsor : Type}.
Variable appVersion : string.
Variable JSON_parse : string → option (list Sponsor).

Set Default Proof Using "Type".

Record AppComponent := mkApp {
  isHomePage : bool;
  sponsors : list Sponsor;
  _isBrowser : bool;
  _curVerAppUsedCount : number;
  _isAppUsedBefore : bool;
  _isFirstNavigation : bool;
  _themeClass : option string;
  _aboutPageNavigated : bool;
  _hideSponsorSection : bool;
  _colorMode : option string;
  _isDarkMode : option bool;
}.

(** The field initialisers of the class. *)
Definition newAppComponent (browser : bool) : AppComponent :=
  {| isHomePage := true;
     sponsors := [];
     _isBrowser := browser;
     _curVerAppUsedCount := Num 0;
     _isAppUsedBefore := false;
     _isFirstNavigation := true;
     _themeClass := None;
     _aboutPageNavigated := false;
     _hideSponsorSection := false;
     _colorMode := None;
     _isDarkMode := None |}.

(** Field assignments [this.f = v]. *)
Definition set_isHomePage (v : bool) (a : AppComponent) : AppComponent :=
  mkApp v (sponsors a) (_isBrowser a) (_curVerAppUsedCount a)
    (_isAppUsedBefore a) (_isFirstNavigation a) (_themeClass a)
    (_aboutPageNavigated a) (_hideSponsorSection a) (_colorMode a)
    (_isDarkMode a).
Definition set_sponsors (v : list Sponsor) (a : AppComponent) : AppComponent :=
  mkApp (isHomePage a) v (_isBrowser a) (_curVerAppUsedCount a)
    (_isAppUsedBefore a) (_isFirstNavigation a) (_themeClass a)
    (_aboutPageNavigated a) (_hideSponsorSection a) (_colorMode a)
    (_isDarkMode a).
Definition set_curVerAppUsedCount (v : number) (a : AppComponent) : AppComponent :=
  mkApp (isHomePage a) (sponsors a) (_isBrowser a) v
    (_isAppUsedBefore a) (_isFirstNavigation a) (_themeClass a)
    (_aboutPageNavigated a) (_hideSponsorSection a) (_colorMode a)
    (_isDarkMode a).
Definition set_isAppUsedBefore (v : bool) (a : AppComponent) : AppComponent :=
  mkApp (isHomePage a) (sponsors a) (_isBrowser a) (_curVerAppUsedCount a)
    v (_isFirstNavigation a) (_themeClass a)
    (_aboutPageNavigated a) (_hideSponsorSection a) (_colorMode a)
    (_isDarkMode a).
Definition set_isFirstNavigation (v : bool) (a : AppComponent) : AppComponent :=
  mkApp (isHomePage a) (sponsors a) (_isBrowser a) (_curVerAppUsedCount a)
    (_isAppUsedBefore a) v (_themeClass a)
    (_aboutPageNavigated a) (_hideSponsorSection a) (_colorMode a)
    (_isDarkMode a).
Definition set_themeClass (v : option string) (a : AppComponent) : AppComponent :=
  mkApp (isHomePage a) (sponsors a) (_isBrowser a) (_curVerAppUsedCount a)
    (_isAppUsedBefore a) (_isFirstNavigation a) v
    (_aboutPageNavigated a) (_hideSponsorSection a) (_colorMode a)
    (_isDarkMode a).
Definition set_aboutPageNavigated (v : bool) (a : AppComponent) : AppComponent :=
  mkApp (isHomePage a) (sponsors a) (_isBrowser a) (_curVerAppUsedCount a)
    (_isAppUsedBefore a) (_isFirstNavigation a) (_themeClass a)
    v (_hideSponsorSection a) (_colorMode a)
    (_isDarkMode a).
Definition set_hideSponsorSection (v : bool) (a : AppComponent) : AppComponent :=
  mkApp (isHomePage a) (sponsors a) (_isBrowser a) (_curVerAppUsedCount a)
    (_isAppUsedBefore a) (_isFirstNavigation a) (_themeClass a)
    (_aboutPageNavigated a) v (_colorMode a)
    (_isDarkMode a).
Definition set_colorMode (v : option string) (a : AppComponent) : AppComponent :=
  mkApp (isHomePage a) (sponsors a) (_isBrowser a) (_curVerAppUsedCount a)
    (_isAppUsedBefore a) (_isFirstNavigation a) (_themeClass a)
    (_aboutPageNavigated a) (_hideSponsorSection a) v
    (_isDarkMode a).
Definition set_isDarkMode (v : option bool) (a : AppComponent) : AppComponent :=
  mkApp (isHomePage a) (sponsors a) (_isBrowser a) (_curVerAppUsedCount a)
    (_isAppUsedBefore a) (_isFirstNavigation a) (_themeClass a)
    (_aboutPageNavigated a) (_hideSponsorSection a) (_colorMode a)
    v.

(** The component together with the collaborators it mutates: the cache,
    the configuration it reads, the number of ['change'] listeners it has
    put on the dark-mode media query, and the calls made on the router and
    the bottom sheet, latest first. *)
Record World := mkWorld {
  this : AppComponent;
  _cacheService : CacheService;
  _configService : ConfigValues;
  changeListeners : nat;
  effects : list Effect;
}.

Definition on_this (f : AppComponent → AppComponent) (w : World) : World :=
  mkWorld (f (this w)) (_cacheService w) (_configService w)
    (changeListeners w) (effects w).
Definition on_cache (f : CacheService → CacheService) (w : World) : World :=
  mkWorld (this w) (f (_cacheService w)) (_configService w)
    (changeListeners w) (effects w).
Definition set_config (cfg : ConfigValues) (w : World) : World :=
  mkWorld (this w) (_cacheService w) cfg (changeListeners w) (effects w).
Definition add_changeListener (w : World) : World :=
  mkWorld (this w) (_cacheService w) (_configService w)
    (S (changeListeners w)) (effects w).
Definition emit (e : Effect) (w : World) : World :=
  mkWorld (this w) (_cacheService w) (_configService w)
    (changeListeners w) (e :: effects w).

(** *** Getters *)

(** [get isDarkMode] *)
Definition isDarkMode (a : AppComponent) : bool :=
  match _isDarkMode a with
  | None => false
  | Some b => b
  end.

(** [get aboutSectionVisible] *)
Definition aboutSectionVisible (a : AppComponent) : bool :=
  if isHomePage a && negb (_isAppUsedBefore a) && negb (_aboutPageNavigated a)
  then true else false.

(** [get sponsorSectionVisible] *)
Definition sponsorSectionVisible (a : AppComponent) : bool :=
  if _hideSponsorSection a
     || bool_decide (length (sponsors a) = 0%nat)
     || negb (_isBrowser a)
     || negb (isHomePage a)
     || aboutSectionVisible a
  then false else true.

(** *** Usage classifier *)

Definition appUsedCountKey (ver : string) : string := "appUsedCount-v" +:+ ver.

Definition getCurVerAppUsedCount (c : CacheService) : number :=
  let appUsedCountStr := getItem_string c (appUsedCountKey appVersion) in
  match appUsedCountStr with
  | Some s => if truthy_string s then parseInt s else Num 0
  | None => Num 0
  end.

Definition oldVersions : list string :=
  [ "3.3.3"; "3.3.2"; "3.3.1"; "3.3.0"; "3.2.0"; "3.1.0"; "3.0.0";
    "2.0.7"; "2.0.6"; "2.0.5"; "2.0.4"; "2.0.3"; "2.0.2"; "2.0.1"; "2.0.0";
    "2.0.0-preview1";
    "1.1.5"; "1.1.4"; "1.1.3"; "1.1.2"; "1.1.1"; "1.0.1"; "1.0.0" ].

(** The [for (const ver of oldVersions)] loop, with its early [return true];
    [false] stands for falling out of the loop. *)
Fixpoint scanOldVersions (c : CacheService) (vers : list string) : bool :=
  match vers with
  | [] => false
  | ver :: rest =>
      let str := getItem_string c (appUsedCountKey ver) in
      if truthy truthy_string str then true else scanOldVersions c rest
  end.

Definition checkAppUsedBefore (a : AppComponent) (c : CacheService) : bool :=
  if negb (_isBrowser a) then false
  else if gt (_curVerAppUsedCount a) (Num 0) then true
  else
    let appUsed := getItem_string c "appUsed" in
    if bool_decide (appUsed = Some "true") then true
    else if scanOldVersions c oldVersions then true
    else false.

Definition increaseAppUsedCount (w : World) : World :=
  if negb (_isBrowser (this w)) then w
  else
    let w1 :=
      on_cache (setItem_string (appUsedCountKey appVersion)
                  (to_string (add (_curVerAppUsedCount (this w)) (Num 1)))) w in
    if negb (_isAppUsedBefore (this w1))
    then on_cache (setItem_string "appUsed" "true") w1
    else w1.

(** *** Share eligibility predicate *)

Definition shouldShowSocialSharingSheet
    (env : Platform) (a : AppComponent) (c : CacheService) : bool :=
  if lt (_curVerAppUsedCount a) (Num 5)
     || match navigator env with
        | None => true
        | Some nav => negb (onLine nav)
        end
  then false
  else
    let socialSharingYesButtonPressed :=
      getItem_boolean c "socialSharingYesButtonPressed" in
    if truthy id socialSharingYesButtonPressed then false
    else
      let socialSharingNoButtonPressed :=
        getItem_boolean c "socialSharingNoButtonPressed" in
      if truthy id socialSharingNoButtonPressed then false
      else
        let socialSharingSheetShownIn :=
          getItem_number c "socialSharingSheetShownIn" in
        if match socialSharingSheetShownIn with
           | Some shownIn =>
               truthy_number shownIn
               && lt (_curVerAppUsedCount a) (add shownIn (Num 7))
           | None => false
           end
        then false
        else true.

(** *** Theme resolver *)

Definition toggleDarkTheme (isDark : bool) (w : World) : World :=
  on_this (set_themeClass (Some (if isDark then "dark" else ""))) w.

Definition setDarkMode (value : bool) (w : World) : World :=
  let w1 := on_this (set_isDarkMode (Some value)) w in
  let w2 :=
    on_cache (setItem_string "isDarkMode" (toLowerCase (bool_to_string value)))
      w1 in
  toggleDarkTheme value w2.

(** [forceDefaultValue] is optional in the source; leaving it out is
    [false] here. *)
Definition detectDarkThemeChange
    (env : Platform) (defaultValue forceDefaultValue : bool) (w : World)
  : World :=
  match prefersColorScheme env with
  | Some darkModeMediaQuery =>
      let w1 :=
        if forceDefaultValue then setDarkMode defaultValue w
        else setDarkMode (matches darkModeMediaQuery) w in
      if addEventListener darkModeMediaQuery then add_changeListener w1 else w1
  | None => setDarkMode defaultValue w
  end.

(** [this._colorMode && this._colorMode.toLowerCase() === name] *)
Definition colorModeIs (name : string) (a : AppComponent) : bool :=
  match _colorMode a with
  | Some m => truthy_string m && bool_decide (toLowerCase m = name)
  | None => false
  end.

Definition detectDarkTheme (env : Platform) (w : World) : World :=
  let defaultValue :=
    if colorModeIs "dark" (this w) then true
    else if colorModeIs "light" (this w) then false
    else
      let cacheDarkModeStr := getItem_string (_cacheService w) "isDarkMode" in
      match cacheDarkModeStr with
      | None => true
      | Some s => bool_decide (s = "true")
      end in
  detectDarkThemeChange env defaultValue true w.

(** *** Configuration *)

Definition updateConfigValues (w : World) : World :=
  let cfg := _configService w in
  let w1 := on_this (set_colorMode (cfg_colorMode cfg)) w in
  let w2 :=
    match cfg_sponsorSectionVisible cfg with
    | Some s =>
        if truthy_string s && bool_decide (toLowerCase s = "false")
        then on_this (set_hideSponsorSection true) w1 else w1
    | None => w1
    end in
  match cfg_sponsors cfg with
  | Some sponsorsStr =>
      if truthy_string sponsorsStr then
        match JSON_parse sponsorsStr with
        | Some l => on_this (set_sponsors l) w2
        | None => on_this (set_sponsors []) w2
        end
      else w2
  | None => w2
  end.

(** *** Navigation interceptor *)

(** The subscriber's statements before the [if] chain. *)
Definition enterRoute (routeData : RouteData) (w : World) : World :=
  let w1 :=
    on_this (set_isHomePage
               (if bool_decide (pageType routeData = Some "home-page")
                then true else false)) w in
  if negb (_aboutPageNavigated (this w1)) && _isBrowser (this w1)
     && bool_decide (pageType routeData = Some "about-page")
  then on_this (set_aboutPageNavigated true) w1
  else w1.

(** The condition of the first [if]. *)
Definition redirectGuard (a : AppComponent) : bool :=
  _isBrowser a && isHomePage a && _isFirstNavigation a
  && strict_eq (_curVerAppUsedCount a) (Num 0) && _isAppUsedBefore a.

(** The condition of the first [else if]. *)
Definition shareGuard (env : Platform) (a : AppComponent) (c : CacheService)
  : bool :=
  _isBrowser a && isHomePage a && _isFirstNavigation a
  && shouldShowSocialSharingSheet env a c.

(** Which body of the [if] / [else if] / [else if] chain is entered, if any. *)
Definition navigationBranch (env : Platform) (w : World) : option Branch :=
  if redirectGuard (this w) then Some FirstUseRedirect
  else if shareGuard env (this w) (_cacheService w) then Some SharePrompt
  else if _isFirstNavigation (this w) then Some DefaultIncrement
  else None.

(** The bodies of the chain. *)
Definition runBranch (b : option Branch) (w : World) : World :=
  match b with
  | Some FirstUseRedirect =>
      let w1 := on_this (set_isFirstNavigation false) w in
      let w2 := increaseAppUsedCount w1 in
      let w3 := on_this (set_hideSponsorSection true) w2 in
      emit (RouterNavigate ["/about"]) w3
  | Some SharePrompt =>
      let w1 := on_this (set_isFirstNavigation false) w in
      let w2 := increaseAppUsedCount w1 in
      let w3 := on_this (set_hideSponsorSection true) w2 in
      let w4 :=
        on_cache (setItem_number "socialSharingSheetShownIn"
                    (_curVerAppUsedCount (this w3))) w3 in
      emit BottomSheetOpen w4
  | Some DefaultIncrement =>
      let w1 := on_this (set_isFirstNavigation false) w in
      increaseAppUsedCount w1
  | None => w
  end.

(** The subscriber of the router's [NavigationEnd] events. *)
Definition onNavigationEnd (env : Platform) (routeData : RouteData) (w : World)
  : World :=
  let w1 := enterRoute routeData w in
  runBranch (navigationBranch env w1) w1.

(** *** Construction *)

Definition constructor
    (env : Platform) (cfg : ConfigValues) (cache : CacheService) : World :=
  let w0 := mkWorld (newAppComponent (platformBrowser env)) cache cfg 0 [] in
  if _isBrowser (this w0) then
    let w1 :=
      on_this (set_curVerAppUsedCount (getCurVerAppUsedCount (_cacheService w0)))
        w0 in
    let w2 :=
      on_this (set_isAppUsedBefore
                 (checkAppUsedBefore (this w1) (_cacheService w1))) w1 in
    let w3 := updateConfigValues w2 in
    detectDarkTheme env w3
  else w0.

(** Modelled from the spec: the share outcome recorder of the sharing sheet
    (shared/social-sharing-sheet is not part of the sources at hand).
    [recordResponse(accepted)] sets exactly one of the two response flags to
    true and leaves the other as stored. *)
Definition recordResponse (accepted : bool) (c : CacheService) : CacheService :=
  if accepted then setItem_boolean "socialSharingYesButtonPressed" true c
  else setItem_boolean "socialSharingNoButtonPressed" true c.

(** ** A session

    What can happen to a constructed component: a completed navigation, a
    change of the configuration values (the component listens only in a
    browser), a ['change'] event of the dark-mode media query (delivered to
    every listener put on it), the [isDarkMode] setter, and an answer to the
    sharing sheet. *)
Inductive Event :=
  | NavigationEnd (routeData : RouteData)
  | ConfigValueChanges (cfg : ConfigValues)
  | ColorSchemeChange (mediaQueryMatches : bool)
  | SetIsDarkMode (value : bool)
  | ShareResponse (accepted : bool).

Definition handle (env : Platform) (e : Event) (w : World) : World :=
  match e with
  | NavigationEnd routeData => onNavigationEnd env routeData w
  | ConfigValueChanges cfg =>
      let w1 := set_config cfg w in
      if _isBrowser (this w1) then updateConfigValues w1 else w1
  | ColorSchemeChange mediaQueryMatches =>
      Nat.iter (changeListeners w) (setDarkMode mediaQueryMatches) w
  | SetIsDarkMode value => setDarkMode value w
  | ShareResponse accepted => on_cache (recordResponse accepted) w
  end.

Fixpoint runEvents (env : Platform) (es : list Event) (w : World) : World :=
  match es with
  | [] => w
  | e :: rest => runEvents env rest (handle env e w)
  end.

(** The branch entered at each [NavigationEnd] of a run, in order. *)
Fixpoint branchLog (env : Platform) (es : list Event) (w : World)
  : list (option Branch) :=
  match es with
  | [] => []
  | NavigationEnd routeData :: rest =>
      navigationBranch env (enterRoute routeData w)
      :: branchLog env rest (handle env (NavigationEnd routeData) w)
  | e :: rest => branchLog env rest (handle env e w)
  end.

(** One session: construct the component over the store, then serve the
    events. *)
Record Session := {
  s_env : Platform;
  s_config : ConfigValues;
  s_events : list Event;
}.

Definition runSession (s : Session) (cache : CacheService) : CacheService :=
  _cacheService
    (runEvents (s_env s) (s_events s) (constructor (s_env s) (s_config s) cache)).

Fixpoint runSessions (ss : list Session) (cache : CacheService) : CacheService :=
  match ss with
  | [] => cache
  | s :: rest => runSessions rest (runSession s cache)
  end.

(** A fresh browser component that holds the given usage count. *)
Definition componentWithCount (n : number) : AppComponent :=
  set_curVerAppUsedCount n (newAppComponent true).



(** ** Vocabulary of the statements *)

(** Some platforms, configurations and routes to run the component on. *)
Definition onlineBrowser : Platform :=
  {| platformBrowser := true;
     navigator := Some {| onLine := true |};
     prefersColorScheme := Some {| matches := false; addEventListener := true |} |}.

Definition serverPlatform : Platform :=
  {| platformBrowser := false;
     navigator := None;
     prefersColorScheme := None |}.

(** A browser session that serves one navigation to the home page. *)
Definition homeVisit : Session :=
  {| s_env := onlineBrowser;
     s_config :=
       {| cfg_colorMode := None;
          cfg_sponsorSectionVisible := None;
          cfg_sponsors := None |};
     s_events := [NavigationEnd {| pagePath := "/"; pageType := Some "home-page" |}] |}.

Definition noConfig : ConfigValues :=
  {| cfg_colorMode := None;
     cfg_sponsorSectionVisible := None;
     cfg_sponsors := None |}.

Definition configWithColorMode (m : string) : ConfigValues :=
  {| cfg_colorMode := Some m;
     cfg_sponsorSectionVisible := None;
     cfg_sponsors := None |}.

(** A [JSON.parse] for runs without a sponsor list: it always throws. *)
Definition parseNoSponsors (s : string) : option (list unit) := None.

Definition homePage : RouteData :=
  {| pagePath := "/"; pageType := Some "home-page" |}.

Definition aboutPage : RouteData :=
  {| pagePath := "/about"; pageType := Some "about-page" |}.



(** What the handlers outside the [if] chain leave alone: the usage fields
    of the component, the first-navigation guard, a sponsor section once it
    is hidden, and every string entry of the store but ["isDarkMode"]. *)
Definition usageFrame (w w' : World) : Prop :=
  _isBrowser (this w') = _isBrowser (this w)
  ∧ _curVerAppUsedCount (this w') = _curVerAppUsedCount (this w)
  ∧ _isAppUsedBefore (this w') = _isAppUsedBefore (this w)
  ∧ _isFirstNavigation (this w') = _isFirstNavigation (this w)
  ∧ (_hideSponsorSection (this w) = true →
     _hideSponsorSection (this w') = true)
  ∧ (∀ key, key ≠ "isDarkMode" →
       getItem_string (_cacheService w') key
       = getItem_string (_cacheService w) key).

Definition isNavigationEnd (e : Event) : bool :=
  match e with
  | NavigationEnd _ => true
  | _ => false
  end.


(** ** Further parts of the component *)

(** [appSettings.appName], [appSettings.appDescription] and
    [UrlHelper.toAbsoluteUrl] (shared/app-settings and shared/url-helper are
    not part of the sources at hand). *)
Variable appName appDescription : string.
Variable toAbsoluteUrl : string → string.

(** [get appTitle] and [get appTitleFull] *)
Definition appTitle : string := appName.
Definition appTitleFull : string := appTitle +:+ " | Myanmar Tools".

(** The head of the document as [updateMeta] writes it: the title set
    through [Title], the href last handed to [LinkService.updateTag] for
    [rel="canonical"], and the [meta] elements kept by [Meta], keyed by
    their [name] ([inl]) or [property] ([inr]) attribute. [Meta.updateTag]
    updates the element with that attribute or adds one; [Meta.removeTag]
    removes it. *)
Record Head := mkHead {
  documentTitle : string;
  canonicalHref : option string;
  metaTags : gmap (string + string) string;
}.

Definition setTitle (t : string) (h : Head) : Head :=
  mkHead t (canonicalHref h) (metaTags h).
Definition linkUpdateCanonical (href : string) (h : Head) : Head :=
  mkHead (documentTitle h) (Some href) (metaTags h).
Definition metaUpdateTag (sel : string + string) (content : string) (h : Head)
  : Head :=
  mkHead (documentTitle h) (canonicalHref h) (<[sel := content]> (metaTags h)).
Definition metaRemoveTag (sel : string + string) (h : Head) : Head :=
  mkHead (documentTitle h) (canonicalHref h) (delete sel (metaTags h)).

(** [routeData.meta && routeData.meta[key] ? routeData.meta[key] : fallback];
    [meta] is the [meta] member of the route data, which the record
    [RouteData] above leaves out. *)
Definition metaOr (meta : option (gmap string string)) (key fallback : string)
  : string :=
  match meta with
  | Some m =>
      match m !! key with
      | Some v => if truthy_string v then v else fallback
      | None => fallback
      end
  | None => fallback
  end.

(** [routeData.meta && routeData.meta.noindex] as a condition *)
Definition metaNoindex (meta : option (gmap string string)) : bool :=
  match meta with
  | Some m => truthy truthy_string (m !! "noindex")
  | None => false
  end.

Definition updateMeta
    (pagePath : string) (meta : option (gmap string string)) (h : Head) : Head :=
  let url := toAbsoluteUrl pagePath in
  let h1 := linkUpdateCanonical url h in
  let h2 := metaUpdateTag (inr "og:url") url h1 in
  let pageTitle := metaOr meta "title" appTitleFull in
  let h3 := setTitle pageTitle h2 in
  let socialTitle := metaOr meta "socialTitle" pageTitle in
  let h4 := metaUpdateTag (inl "twitter:title") socialTitle h3 in
  let h5 := metaUpdateTag (inr "og:title") socialTitle h4 in
  let h6 :=
    if metaNoindex meta then metaUpdateTag (inl "robots") "noindex" h5
    else metaRemoveTag (inl "robots") h5 in
  let metaDescription := metaOr meta "description" appDescription in
  let h7 := metaUpdateTag (inl "description") metaDescription h6 in
  let socialDescription := metaOr meta "socialDescription" metaDescription in
  let h8 := metaUpdateTag (inl "twitter:description") socialDescription h7 in
  let h9 := metaUpdateTag (inr "og:description") socialDescription h8 in
  let keywords := metaOr meta "keywords" appName in
  metaUpdateTag (inl "keywords") keywords h9.

(** The [meta] elements that [updateMeta] writes or removes. *)
Definition managedTags : list (string + string) :=
  [ inr "og:url"; inl "twitter:title"; inr "og:title"; inl "robots";
    inl "description"; inl "twitter:description"; inr "og:description";
    inl "keywords" ].

(** The [uri] that the subscriber passes to [trackPageView]: the path, but
    not while [_isFirstNavigation] is still true. *)
Definition trackedUri (a : AppComponent) (routeData : RouteData)
  : option string :=
  if negb (_isFirstNavigation a) && truthy_string (pagePath routeData)
  then Some (pagePath routeData) else None.

(** The [uri] tracked at each [NavigationEnd] of a run, in order. *)
Fixpoint pageViewLog (env : Platform) (es : list Event) (w : World)
  : list (option string) :=
  match es with
  | [] => []
  | NavigationEnd routeData :: rest =>
      trackedUri (this w) routeData
      :: pageViewLog env rest (handle env (NavigationEnd routeData) w)
  | e :: rest => pageViewLog env rest (handle env e w)
  end.


(** The world a session ends in, and the calls it made on the router and the
    bottom sheet. *)
Definition sessionEnd (s : Session) (cache : CacheService) : World :=
  runEvents (s_env s) (s_events s) (constructor (s_env s) (s_config s) cache).

Definition sessionEffects (s : Session) (cache : CacheService) : list Effect :=
  effects (sessionEnd s cache).

(** The calls of a list of sessions, run one after the other over the
    store. *)
Fixpoint sessionsEffects (ss : list Session) (cache : CacheService)
  : list Effect :=
  match ss with
  | [] => []
  | s :: rest =>
      (sessionEffects s cache ++ sessionsEffects rest (runSession s cache))%list
  end.

(** The route data of the navigations of a run, in order. *)
Fixpoint navigations (es : list Event) : list RouteData :=
  match es with
  | [] => []
  | NavigationEnd routeData :: rest => routeData :: navigations rest
  | _ :: rest => navigations rest
  end.

(** The events that write to the store whatever the platform is: the
    [isDarkMode] setter and an answer to the sharing sheet. *)
Definition writesAnywhere (e : Event) : bool :=
  match e with
  | SetIsDarkMode _ | ShareResponse _ => true
  | _ => false
  end.


(** A resolved dark mode is the one persisted and the one shown. *)
Definition themeConsistent (w : World) : Prop :=
  match _isDarkMode (this w) with
  | Some b =>
      getItem_string (_cacheService w) "isDarkMode" = Some (bool_to_string b)
      ∧ _themeClass (this w) = Some (if b then "dark" else "")
  | None => True
  end.

(** No override of the color mode is configured. *)
Definition noColorModeOverride (cfg : ConfigValues) : Prop :=
  ∀ m, cfg_colorMode cfg = Some m →
       toLowerCase m ≠ "dark" ∧ toLowerCase m ≠ "light".

(** ** Printing a number and reading it back *)








(** ** The usage classifier *)


(** The loop over the old versions finds an entry exactly when one of the
    listed versions has a stored, non-empty count string. *)
Lemma scanOldVersions_true (c : CacheService) (vers : list string) :
  scanOldVersions c vers = true
  ↔ ∃ ver s, ver ∈ vers
             ∧ getItem_string c (appUsedCountKey ver) = Some s ∧ s ≠ "".
Proof.
  induction vers as [|v vers IH]; simpl.
  - split; [done|]. intros (ver & s & Hin & _). by apply elem_of_nil in Hin.
  - destruct (getItem_string c (appUsedCountKey v)) as [[|ch s]|] eqn:Hv; simpl.
    + rewrite IH. split.
      * intros (ver & s & Hin & Hs). exists ver, s. split; [by right|done].
      * intros (ver & s & Hin & Hget & Hs). apply elem_of_cons in Hin as [->|Hin].
        -- congruence.
        -- by exists ver, s.
    + split; [|done]. intros _. exists v, (String ch s).
      split; [by left|]. by split.
    + rewrite IH. split.
      * intros (ver & s & Hin & Hs). exists ver, s. split; [by right|done].
      * intros (ver & s & Hin & Hget & Hs). apply elem_of_cons in Hin as [->|Hin].
        -- congruence.
        -- by exists ver, s.
Qed.

(** The cascade of [checkAppUsedBefore] as one boolean expression. *)
Lemma checkAppUsedBefore_eq (a : AppComponent) (c : CacheService) :
  checkAppUsedBefore a c
  = _isBrowser a
    && (gt (_curVerAppUsedCount a) (Num 0)
        || bool_decide (getItem_string c "appUsed" = Some "true")
        || scanOldVersions c oldVersions).
Proof.
  unfold checkAppUsedBefore.
  destruct (_isBrowser a), (gt (_curVerAppUsedCount a) (Num 0)),
    (bool_decide (getItem_string c "appUsed" = Some "true")),
    (scanOldVersions c oldVersions); reflexivity.
Qed.

(** C6. The used-before classifier is false outside a browser; in a browser
    it is true exactly when the current-version count is positive, or the
    stored [appUsed] flag is the string ['true'], or some version of the
    fixed old-version list has a non-empty stored count entry. Over an empty
    store with count 0 it is false. *)
Theorem checkAppUsedBefore_spec (a : AppComponent) (c : CacheService) :
  (_isBrowser a = false → checkAppUsedBefore a c = false)
  ∧ (_isBrowser a = true →
     (checkAppUsedBefore a c = true
      ↔ gt (_curVerAppUsedCount a) (Num 0) = true
        ∨ getItem_string c "appUsed" = Some "true"
        ∨ ∃ ver s, ver ∈ oldVersions
                   ∧ getItem_string c (appUsedCountKey ver) = Some s
                   ∧ s ≠ ""))
  ∧ (_curVerAppUsedCount a = Num 0 → checkAppUsedBefore a emptyCache = false).
Proof.
  split; [|split].
  - rewrite checkAppUsedBefore_eq. by intros ->.
  - rewrite checkAppUsedBefore_eq. intros ->.
    rewrite andb_true_l, !orb_true_iff, bool_decide_eq_true.
    rewrite scanOldVersions_true.
    split; [intros [[Hc | Hc] | Hc] | intros [Hc | [Hc | Hc]]]; auto.
  - intros Hzero. rewrite checkAppUsedBefore_eq, Hzero.
    by destruct (_isBrowser a).
Qed.

(** ** The share eligibility predicate *)

Lemma shouldShow_below_five
    (env : Platform) (a : AppComponent) (c : CacheService) :
  lt (_curVerAppUsedCount a) (Num 5) = true →
  shouldShowSocialSharingSheet env a c = false.
Proof.
  intros Hlt. unfold shouldShowSocialSharingSheet. by rewrite Hlt.
Qed.

(** C3. With a current-version usage count below 5 (so also at 4) the share
    eligibility predicate is false, whatever the online signal, the response
    flags and the stored prompt-shown marker are. *)
Theorem share_needs_five_uses
    (env : Platform) (a : AppComponent) (c : CacheService) :
  lt (_curVerAppUsedCount a) (Num 5) = true →
  shouldShowSocialSharingSheet env a c = false.
Proof. apply shouldShow_below_five. Qed.

(** C5. When the stored share-accepted flag or the stored share-declined
    flag is true, the share eligibility predicate is false for every usage
    count, online signal and prompt-shown marker. *)
Theorem share_never_after_response
    (env : Platform) (a : AppComponent) (c : CacheService) :
  getItem_boolean c "socialSharingYesButtonPressed" = Some true
  ∨ getItem_boolean c "socialSharingNoButtonPressed" = Some true →
  shouldShowSocialSharingSheet env a c = false.
Proof.
  intros Hflag. unfold shouldShowSocialSharingSheet.
  destruct (_ || _); [done|].
  destruct Hflag as [-> | ->]; simpl; [done|].
  by destruct (truthy id _).
Qed.


(** What holds for the marker that the interceptor itself stores: it is
    written in the share-prompt branch only, where the count is not below 5,
    so an integer marker written by the component is never 0. *)
Lemma shareGuard_count (env : Platform) (a : AppComponent) (c : CacheService) n :
  shareGuard env a c = true → _curVerAppUsedCount a = Num n → (5 ≤ n)%Z.
Proof.
  unfold shareGuard, shouldShowSocialSharingSheet. intros Hg Hn.
  apply andb_true_iff in Hg as [_ Hs]. rewrite Hn in Hs. simpl in Hs.
  case_bool_decide; [done|]. lia.
Qed.

(** ** The navigation interceptor *)

(** C10. The first-ever-use redirect condition and the share-prompt
    condition never hold together, in any state: the redirect needs the
    current-version count to be 0, while the share eligibility predicate
    needs [count < 5] to fail, so an integer count of at least 5. The order
    of the first two branches never decides between two eligible ones. *)
Theorem redirect_excludes_share
    (env : Platform) (a : AppComponent) (c : CacheService) :
  redirectGuard a && shareGuard env a c = false
  ∧ (redirectGuard a = true → _curVerAppUsedCount a = Num 0)
  ∧ (redirectGuard a = true → shouldShowSocialSharingSheet env a c = false)
  ∧ (shouldShowSocialSharingSheet env a c = true →
     lt (_curVerAppUsedCount a) (Num 5) = false)
  ∧ (∀ n, _curVerAppUsedCount a = Num n →
          shouldShowSocialSharingSheet env a c = true → (5 ≤ n)%Z).
Proof.
  assert (Hzero : redirectGuard a = true → _curVerAppUsedCount a = Num 0).
  { unfold redirectGuard. intros Hg.
    repeat (apply andb_true_iff in Hg as [Hg ?]).
    destruct (_curVerAppUsedCount a) as [z|]; [|done].
    simpl in *. f_equal. by case_bool_decide. }
  assert (Hno : redirectGuard a = true →
                shouldShowSocialSharingSheet env a c = false).
  { intros Hg. apply shouldShow_below_five. by rewrite (Hzero Hg). }
  repeat split; try done.
  - destruct (redirectGuard a) eqn:Hg; [|done].
    unfold shareGuard. rewrite (Hno eq_refl). by rewrite andb_false_r.
  - unfold shouldShowSocialSharingSheet.
    by destruct (lt (_curVerAppUsedCount a) (Num 5)).
  - intros n Hn. unfold shouldShowSocialSharingSheet. rewrite Hn. simpl.
    case_bool_decide; [done|]. lia.
Qed.

(** *** Frames *)

Lemma usageFrame_refl (w : World) : usageFrame w w.
Proof. by repeat split. Qed.

Lemma usageFrame_trans (w1 w2 w3 : World) :
  usageFrame w1 w2 → usageFrame w2 w3 → usageFrame w1 w3.
Proof.
  intros (B1 & C1 & U1 & F1 & H1 & S1) (B2 & C2 & U2 & F2 & H2 & S2).
  repeat split; try congruence; [auto|].
  intros key Hkey. rewrite S2, S1; done.
Qed.

Lemma setDarkMode_frame (value : bool) (w : World) :
  usageFrame w (setDarkMode value w).
Proof.
  repeat split; try done. intros key Hkey.
  unfold setDarkMode, getItem_string. simpl. by rewrite lookup_insert_ne.
Qed.

Lemma setDarkMode_iter_frame (n : nat) (value : bool) (w : World) :
  usageFrame w (Nat.iter n (setDarkMode value) w).
Proof.
  induction n as [|n IH]; simpl; [apply usageFrame_refl|].
  eapply usageFrame_trans; [apply IH | apply setDarkMode_frame].
Qed.

Lemma updateConfigValues_frame (w : World) : usageFrame w (updateConfigValues w).
Proof.
  unfold updateConfigValues.
  repeat case_match; repeat split; simpl; auto.
Qed.

Lemma enterRoute_frame (routeData : RouteData) (w : World) :
  usageFrame w (enterRoute routeData w).
Proof.
  unfold enterRoute. repeat case_match; repeat split; simpl; auto.
Qed.

(** Every event but a navigation stays within the frame. *)
Lemma handle_frame (env : Platform) (e : Event) (w : World) :
  isNavigationEnd e = false → usageFrame w (handle env e w).
Proof.
  destruct e as [rd | cfg | m | v | acc]; simpl; intros Hnav; try done.
  - case_match.
    + eapply usageFrame_trans; [|apply updateConfigValues_frame].
      by repeat split.
    + by repeat split.
  - apply setDarkMode_iter_frame.
  - apply setDarkMode_frame.
  - repeat split; try done. intros key _. by destruct acc.
Qed.

Lemma increaseAppUsedCount_this (w : World) :
  this (increaseAppUsedCount w) = this w.
Proof. unfold increaseAppUsedCount. by repeat case_match. Qed.

Lemma increaseAppUsedCount_effects (w : World) :
  effects (increaseAppUsedCount w) = effects w.
Proof. unfold increaseAppUsedCount. by repeat case_match. Qed.

(** *** The first-navigation guard *)

Lemma navigationBranch_after (env : Platform) (w : World) :
  _isFirstNavigation (this w) = false → navigationBranch env w = None.
Proof.
  intros Hg. unfold navigationBranch, redirectGuard, shareGuard.
  rewrite Hg. by rewrite !andb_false_r.
Qed.

Lemma navigationBranch_first (env : Platform) (w : World) :
  _isFirstNavigation (this w) = true → is_Some (navigationBranch env w).
Proof.
  intros Hg. unfold navigationBranch. rewrite Hg.
  repeat case_match; eauto.
Qed.

Lemma runBranch_guard (b : Branch) (w : World) :
  _isFirstNavigation (this (runBranch (Some b) w)) = false.
Proof.
  destruct b; simpl; by rewrite increaseAppUsedCount_this.
Qed.

Lemma runBranch_hide (b : option Branch) (w : World) :
  _hideSponsorSection (this w) = true →
  _hideSponsorSection (this (runBranch b w)) = true.
Proof.
  destruct b as [[]|]; simpl; try done; by rewrite increaseAppUsedCount_this.
Qed.

Lemma handle_guard_false (env : Platform) (e : Event) (w : World) :
  _isFirstNavigation (this w) = false →
  _isFirstNavigation (this (handle env e w)) = false.
Proof.
  intros Hg. destruct (isNavigationEnd e) eqn:Hnav.
  - destruct e as [rd| | | |]; try done. simpl. unfold onNavigationEnd.
    assert (Hg' : _isFirstNavigation (this (enterRoute rd w)) = false).
    { destruct (enterRoute_frame rd w) as (_ & _ & _ & -> & _). done. }
    by rewrite navigationBranch_after.
  - destruct (handle_frame env e w Hnav) as (_ & _ & _ & -> & _). done.
Qed.

Lemma handle_hide (env : Platform) (e : Event) (w : World) :
  _hideSponsorSection (this w) = true →
  _hideSponsorSection (this (handle env e w)) = true.
Proof.
  intros Hh. destruct (isNavigationEnd e) eqn:Hnav.
  - destruct e as [rd| | | |]; try done. simpl. unfold onNavigationEnd.
    apply runBranch_hide.
    destruct (enterRoute_frame rd w) as (_ & _ & _ & _ & Hhide & _). auto.
  - destruct (handle_frame env e w Hnav) as (_ & _ & _ & _ & Hhide & _). auto.
Qed.

Lemma runEvents_hide (env : Platform) (es : list Event) (w : World) :
  _hideSponsorSection (this w) = true →
  _hideSponsorSection (this (runEvents env es w)) = true.
Proof.
  revert w. induction es as [|e es IH]; intros w Hh; simpl; [done|].
  apply IH. by apply handle_hide.
Qed.

(** After the guard has fallen no navigation enters a branch, and the guard
    stays down. *)
Lemma branchLog_after (env : Platform) (es : list Event) (w : World) :
  _isFirstNavigation (this w) = false →
  Forall (eq None) (branchLog env es w)
  ∧ _isFirstNavigation (this (runEvents env es w)) = false.
Proof.
  revert w. induction es as [|e es IH]; intros w Hg; simpl; [by split|].
  pose proof (handle_guard_false env e w Hg) as Hg'.
  destruct (IH _ Hg') as [Hlog Hfin].
  destruct e as [rd| | | |]; try done.
  split; [|done]. constructor; [|done].
  symmetry. apply navigationBranch_after.
  destruct (enterRoute_frame rd w) as (_ & _ & _ & -> & _). done.
Qed.

(** While the guard is up, the first navigation of a run enters a branch and
    the later ones enter none. *)
Lemma branchLog_first (env : Platform) (es : list Event) (w : World) :
  _isFirstNavigation (this w) = true →
  (branchLog env es w = []
   ∧ _isFirstNavigation (this (runEvents env es w)) = true)
  ∨ (∃ b rest, branchLog env es w = Some b :: rest
               ∧ Forall (eq None) rest
               ∧ _isFirstNavigation (this (runEvents env es w)) = false).
Proof.
  revert w. induction es as [|e es IH]; intros w Hg; simpl; [by left|].
  destruct (isNavigationEnd e) eqn:Hnav.
  - destruct e as [rd| | | |]; try done. right.
    assert (Hg' : _isFirstNavigation (this (enterRoute rd w)) = true).
    { destruct (enterRoute_frame rd w) as (_ & _ & _ & -> & _). done. }
    destruct (navigationBranch_first env _ Hg') as [b Hb].
    simpl. unfold onNavigationEnd. rewrite Hb.
    pose proof (runBranch_guard b (enterRoute rd w)) as Hdown.
    destruct (branchLog_after env es _ Hdown) as [Hlog Hfin].
    by exists b, (branchLog env es (runBranch (Some b) (enterRoute rd w))).
  - assert (Hg' : _isFirstNavigation (this (handle env e w)) = true).
    { destruct (handle_frame env e w Hnav) as (_ & _ & _ & -> & _). done. }
    destruct e as [rd| | | |]; try done; apply (IH _ Hg').
Qed.

Lemma branchLog_length (env : Platform) (es : list Event) (w : World) :
  length (branchLog env es w) = length (filter (λ e, isNavigationEnd e = true) es).
Proof.
  revert w. induction es as [|e es IH]; intros w; [done|].
  destruct e as [rd| | | |]; simpl;
    rewrite ?filter_cons_True, ?filter_cons_False by done; simpl; by rewrite IH.
Qed.

Lemma constructor_guard
    (env : Platform) (cfg : ConfigValues) (cache : CacheService) :
  _isFirstNavigation (this (constructor env cfg cache)) = true.
Proof.
  unfold constructor, detectDarkTheme, detectDarkThemeChange, updateConfigValues.
  simpl. repeat case_match; reflexivity.
Qed.

Lemma omap_all_None (l : list (option Branch)) :
  Forall (eq None) l → omap id l = [].
Proof. induction 1 as [|x l <- _ IH]; [done|]. simpl. exact IH. Qed.

(** C1. Over every sequence of events of one session, the branches of the
    interceptor (first-ever-use redirect, share prompt, default increment)
    are entered at most once in total: the first completed navigation enters
    exactly one of them, every later navigation enters none, and after the
    first navigation the first-navigation guard is false. The log has one
    entry per completed navigation, and with the guard false no condition of
    the chain holds. *)
Theorem interceptor_decides_once
    (env : Platform) (cfg : ConfigValues) (cache : CacheService)
    (es : list Event) :
  let w0 := constructor env cfg cache in
  let log := branchLog env es w0 in
  length log = length (filter (λ e, isNavigationEnd e = true) es)
  ∧ (length (omap id log) ≤ 1)%nat
  ∧ (∀ b rest, log = b :: rest →
       is_Some b
       ∧ Forall (eq None) rest
       ∧ _isFirstNavigation (this (runEvents env es w0)) = false)
  ∧ (∀ w, _isFirstNavigation (this w) = false →
          redirectGuard (this w) = false
          ∧ shareGuard env (this w) (_cacheService w) = false
          ∧ navigationBranch env w = None).
Proof.
  intros w0 log.
  assert (Hdown : ∀ w, _isFirstNavigation (this w) = false →
            redirectGuard (this w) = false
            ∧ shareGuard env (this w) (_cacheService w) = false
            ∧ navigationBranch env w = None).
  { intros w Hg. split; [|split].
    - unfold redirectGuard. rewrite Hg. by rewrite !andb_false_r.
    - unfold shareGuard. rewrite Hg. by rewrite !andb_false_r.
    - by apply navigationBranch_after. }
  split; [apply branchLog_length|]. subst log.
  destruct (branchLog_first env es w0 (constructor_guard env cfg cache))
    as [[Hnil _] | (b0 & rest0 & Hlog & Hrest & Hfin)].
  - rewrite Hnil. split; [simpl; lia|]. split; [|exact Hdown].
    intros b rest Hb. discriminate.
  - rewrite Hlog. split; [|split; [|exact Hdown]].
    + simpl. rewrite omap_all_None by done. simpl. lia.
    + intros b rest [= <- <-]. by split; [eexists|].
Qed.

Lemma enterRoute_home (routeData : RouteData) (w : World) :
  pageType routeData = Some "home-page" →
  enterRoute routeData w = on_this (set_isHomePage true) w.
Proof.
  intros Hpage. unfold enterRoute. rewrite Hpage.
  rewrite bool_decide_eq_true_2 by done.
  rewrite (bool_decide_eq_false_2 (Some "home-page" = Some "about-page"))
    by done.
  by rewrite andb_false_r.
Qed.

(** C2. On the first navigation of a session in a browser, on the home page,
    with current-version usage count 0 and has-used-before true, the
    interceptor enters the redirect branch: the persisted count of the
    current version becomes 1, the sponsor section is hidden for the rest of
    the session, and the router is sent to the about route. *)
Theorem first_use_redirect
    (env : Platform) (routeData : RouteData) (w : World) :
  _isBrowser (this w) = true →
  pageType routeData = Some "home-page" →
  _isFirstNavigation (this w) = true →
  _curVerAppUsedCount (this w) = Num 0 →
  _isAppUsedBefore (this w) = true →
  let w' := onNavigationEnd env routeData w in
  navigationBranch env (enterRoute routeData w) = Some FirstUseRedirect
  ∧ getItem_string (_cacheService w') (appUsedCountKey appVersion) = Some "1"
  ∧ getCurVerAppUsedCount (_cacheService w') = Num 1
  ∧ effects w' = RouterNavigate ["/about"] :: effects w
  ∧ _isFirstNavigation (this w') = false
  ∧ ∀ es, sponsorSectionVisible (this (runEvents env es w')) = false.
Proof.
  intros Hb Hpage Hfirst Hcount Hused w'.
  assert (Hguard : redirectGuard (this (enterRoute routeData w)) = true).
  { rewrite enterRoute_home by done. unfold redirectGuard. simpl.
    by rewrite Hb, Hfirst, Hcount, Hused. }
  assert (Hbranch :
    navigationBranch env (enterRoute routeData w) = Some FirstUseRedirect).
  { unfold navigationBranch. by rewrite Hguard. }
  assert (Hw' : w' = runBranch (Some FirstUseRedirect)
                       (on_this (set_isHomePage true) w)).
  { unfold w', onNavigationEnd. rewrite Hbranch. by rewrite enterRoute_home. }
  assert (Hstored :
    getItem_string (_cacheService w') (appUsedCountKey appVersion) = Some "1").
  { rewrite Hw'. simpl. unfold increaseAppUsedCount. simpl.
    rewrite Hb, Hcount, Hused. simpl.
    unfold getItem_string. simpl. apply lookup_insert_eq. }
  split; [done|]. split; [done|]. split.
  { unfold getCurVerAppUsedCount. by rewrite Hstored. }
  split.
  { rewrite Hw'. simpl. by rewrite increaseAppUsedCount_effects. }
  split.
  { rewrite Hw'. apply runBranch_guard. }
  intros es. unfold sponsorSectionVisible.
  rewrite runEvents_hide; [done|]. by rewrite Hw'.
Qed.

(** ** Has-used-before across sessions *)

Lemma appUsedCountKey_not_isDarkMode (ver : string) :
  appUsedCountKey ver ≠ "isDarkMode".
Proof. discriminate. Qed.
















(** ** The theme resolver *)

Lemma updateConfigValues_colorMode (w : World) :
  _colorMode (this (updateConfigValues w)) = cfg_colorMode (_configService w)
  ∧ changeListeners (updateConfigValues w) = changeListeners w.
Proof. unfold updateConfigValues. by repeat case_match. Qed.

(** A configured override decides the default value. *)
Lemma colorMode_override (a : AppComponent) (m : string) (b : bool) :
  _colorMode a = Some m →
  toLowerCase m = (if b then "dark" else "light") →
  (if colorModeIs "dark" a then true
   else if colorModeIs "light" a then false
   else false) = b
  ∧ (colorModeIs "dark" a || colorModeIs "light" a = true).
Proof.
  intros Hm Hlow. unfold colorModeIs. rewrite Hm, Hlow.
  assert (Htruthy : truthy_string m = true).
  { destruct m; [by destruct b | done]. }
  rewrite Htruthy. by destruct b.
Qed.

Lemma setDarkMode_isDarkMode (value : bool) (w : World) :
  isDarkMode (this (setDarkMode value w)) = value
  ∧ getItem_string (_cacheService (setDarkMode value w)) "isDarkMode"
    = Some (bool_to_string value)
  ∧ changeListeners (setDarkMode value w) = changeListeners w.
Proof.
  split; [done|]. split; [|done].
  unfold setDarkMode, getItem_string. simpl. rewrite lookup_insert_eq.
  by destruct value.
Qed.

Lemma setDarkMode_iter (n : nat) (value : bool) (w : World) :
  n ≠ 0%nat → isDarkMode (this (Nat.iter n (setDarkMode value) w)) = value.
Proof. destruct n as [|n]; [done|]. intros _. simpl. done. Qed.

(** C9 (as the code has it). In a browser, a configured override (['dark']
    or ['light'], in any letter case) fixes the dark mode resolved at
    construction, whatever the store holds and whatever the system prefers,
    and that value is persisted. The listener for the live color-scheme
    signal is put on the media query whenever the platform has one with
    [addEventListener], override or not, and a later change of the signal
    sets the dark mode to the signalled value. *)
Theorem theme_override_initial
    (env : Platform) (cfg : ConfigValues) (cache : CacheService)
    (m : string) (b : bool) :
  platformBrowser env = true →
  cfg_colorMode cfg = Some m →
  toLowerCase m = (if b then "dark" else "light") →
  let w0 := constructor env cfg cache in
  isDarkMode (this w0) = b
  ∧ getItem_string (_cacheService w0) "isDarkMode" = Some (bool_to_string b)
  ∧ changeListeners w0
    = match prefersColorScheme env with
      | Some darkModeMediaQuery =>
          if addEventListener darkModeMediaQuery then 1%nat else 0%nat
      | None => 0%nat
      end
  ∧ (∀ v, changeListeners w0 ≠ 0%nat →
          isDarkMode (this (handle env (ColorSchemeChange v) w0)) = v).
Proof.
  intros HB Hcfg Hlow w0.
  assert (Hw0 : ∃ w, w0 = detectDarkTheme env w
                     ∧ _colorMode (this w) = Some m
                     ∧ changeListeners w = 0%nat).
  { unfold w0, constructor. simpl. rewrite HB. eexists. split; [reflexivity|].
    destruct (updateConfigValues_colorMode
      (on_this
         (set_isAppUsedBefore
            (checkAppUsedBefore
               (set_curVerAppUsedCount (getCurVerAppUsedCount cache)
                  (newAppComponent true)) cache))
         (on_this (set_curVerAppUsedCount (getCurVerAppUsedCount cache))
            (mkWorld (newAppComponent true) cache cfg 0 []))))
      as [Hmode Hlisten].
    split; [by rewrite <- Hcfg | exact Hlisten]. }
  destruct Hw0 as (w & Hw0 & Hmode & Hlisten). clearbody w0. subst w0.
  destruct (colorMode_override (this w) m b Hmode Hlow) as [Hdefault Hset].
  assert (Hdetect :
    detectDarkTheme env w = detectDarkThemeChange env b true w).
  { unfold detectDarkTheme. f_equal.
    destruct (colorModeIs "dark" (this w)); [done|].
    by destruct (colorModeIs "light" (this w)). }
  rewrite Hdetect. unfold detectDarkThemeChange.
  destruct (setDarkMode_isDarkMode b w) as (Hdark & Hstored & Hl).
  assert (Hchange : ∀ v w1, changeListeners w1 ≠ 0%nat →
    isDarkMode (this (handle env (ColorSchemeChange v) w1)) = v).
  { intros v w1 Hne. simpl. by apply setDarkMode_iter. }
  destruct (prefersColorScheme env) as [mq|]; [destruct (addEventListener mq)|];
    (split; [exact Hdark|]); (split; [exact Hstored|]);
    (split; [simpl; lia | intros v Hne; by apply Hchange]).
Qed.

(** ** The usage counter through a session *)


Lemma increaseAppUsedCount_server (w : World) :
  _isBrowser (this w) = false → increaseAppUsedCount w = w.
Proof. unfold increaseAppUsedCount. by intros ->. Qed.


Lemma onNavigationEnd_guard (env : Platform) (routeData : RouteData) (w : World) :
  _isFirstNavigation (this (onNavigationEnd env routeData w)) = false.
Proof.
  destruct (_isFirstNavigation (this w)) eqn:Hg.
  - unfold onNavigationEnd.
    assert (Hg' : _isFirstNavigation (this (enterRoute routeData w)) = true).
    { destruct (enterRoute_frame routeData w) as (_ & _ & _ & -> & _). done. }
    destruct (navigationBranch_first env _ Hg') as [b ->].
    apply runBranch_guard.
  - unfold onNavigationEnd.
    assert (Hg' : _isFirstNavigation (this (enterRoute routeData w)) = false).
    { destruct (enterRoute_frame routeData w) as (_ & _ & _ & -> & _). done. }
    by rewrite navigationBranch_after.
Qed.


(** The bodies of the chain leave the usage fields alone. *)
Lemma runBranch_fields (b : option Branch) (w : World) :
  _isBrowser (this (runBranch b w)) = _isBrowser (this w)
  ∧ _curVerAppUsedCount (this (runBranch b w)) = _curVerAppUsedCount (this w)
  ∧ _isAppUsedBefore (this (runBranch b w)) = _isAppUsedBefore (this w).
Proof.
  destruct b as [[]|]; simpl; rewrite ?increaseAppUsedCount_this; done.
Qed.

Lemma handle_isBrowser (env : Platform) (e : Event) (w : World) :
  _isBrowser (this (handle env e w)) = _isBrowser (this w).
Proof.
  destruct (isNavigationEnd e) eqn:Hnav.
  - destruct e as [rd| | | |]; try done. simpl. unfold onNavigationEnd.
    destruct (runBranch_fields (navigationBranch env (enterRoute rd w))
                (enterRoute rd w)) as (-> & _).
    by destruct (enterRoute_frame rd w) as (-> & _).
  - by destruct (handle_frame env e w Hnav) as (-> & _).
Qed.










(** ** What the handlers do to the rest of the world *)

Lemma setDarkMode_iter_rest (n : nat) (value : bool) (w : World) :
  effects (Nat.iter n (setDarkMode value) w) = effects w
  ∧ boolItems (_cacheService (Nat.iter n (setDarkMode value) w))
    = boolItems (_cacheService w)
  ∧ numItems (_cacheService (Nat.iter n (setDarkMode value) w))
    = numItems (_cacheService w)
  ∧ _aboutPageNavigated (this (Nat.iter n (setDarkMode value) w))
    = _aboutPageNavigated (this w).
Proof.
  induction n as [|n (IH1 & IH2 & IH3 & IH4)]; [done|]. simpl.
  by rewrite IH1, IH2, IH3, IH4.
Qed.

Lemma updateConfigValues_rest (w : World) :
  effects (updateConfigValues w) = effects w
  ∧ _cacheService (updateConfigValues w) = _cacheService w
  ∧ _aboutPageNavigated (this (updateConfigValues w))
    = _aboutPageNavigated (this w).
Proof. unfold updateConfigValues. by repeat case_match. Qed.

Lemma enterRoute_rest (routeData : RouteData) (w : World) :
  effects (enterRoute routeData w) = effects w
  ∧ _cacheService (enterRoute routeData w) = _cacheService w.
Proof. unfold enterRoute. by repeat case_match. Qed.

(** Outside a navigation no call is made on the router or the bottom
    sheet, the number entries of the store stay, and a boolean entry
    that is true stays true. *)
Lemma handle_rest (env : Platform) (e : Event) (w : World) :
  isNavigationEnd e = false →
  effects (handle env e w) = effects w
  ∧ numItems (_cacheService (handle env e w)) = numItems (_cacheService w)
  ∧ (∀ key, getItem_boolean (_cacheService w) key = Some true →
            getItem_boolean (_cacheService (handle env e w)) key = Some true)
  ∧ _aboutPageNavigated (this (handle env e w)) = _aboutPageNavigated (this w).
Proof.
  destruct e as [rd | cfg | m | v | acc]; simpl; intros Hnav; try done.
  - destruct (_isBrowser (this w)); [|done].
    destruct (updateConfigValues_rest (set_config cfg w)) as (-> & -> & ->).
    done.
  - destruct (setDarkMode_iter_rest (changeListeners w) m w)
      as (He & Hb & Hn & Ha).
    unfold getItem_boolean. by rewrite He, Hb, Hn, Ha.
  - repeat split; try by destruct acc.
    intros key Hkey. unfold getItem_boolean in *.
    destruct acc; simpl; rewrite lookup_insert; by case_decide.
Qed.

Lemma runBranch_effects (b : option Branch) (w : World) :
  effects (runBranch b w)
  = match b with
    | Some FirstUseRedirect => RouterNavigate ["/about"] :: effects w
    | Some SharePrompt => BottomSheetOpen :: effects w
    | _ => effects w
    end.
Proof.
  destruct b as [[]|]; simpl; by rewrite ?increaseAppUsedCount_effects.
Qed.

Lemma increaseAppUsedCount_rest (w : World) :
  boolItems (_cacheService (increaseAppUsedCount w))
  = boolItems (_cacheService w)
  ∧ numItems (_cacheService (increaseAppUsedCount w))
    = numItems (_cacheService w).
Proof. unfold increaseAppUsedCount. by repeat case_match. Qed.

(** Only the share-prompt branch writes a number entry; no branch writes a
    boolean entry. *)
Lemma runBranch_rest (b : option Branch) (w : World) :
  boolItems (_cacheService (runBranch b w)) = boolItems (_cacheService w)
  ∧ (b ≠ Some SharePrompt →
     numItems (_cacheService (runBranch b w)) = numItems (_cacheService w)).
Proof.
  destruct b as [[]|]; simpl;
    destruct (increaseAppUsedCount_rest
                (on_this (set_isFirstNavigation false) w)) as [Hb Hn];
    rewrite ?Hb, ?Hn; done.
Qed.

Lemma navigationBranch_share (env : Platform) (w : World) :
  navigationBranch env w = Some SharePrompt →
  shareGuard env (this w) (_cacheService w) = true.
Proof. unfold navigationBranch. by repeat case_match. Qed.

Lemma navigationBranch_redirect (env : Platform) (w : World) :
  navigationBranch env w = Some FirstUseRedirect →
  redirectGuard (this w) = true.
Proof. unfold navigationBranch. by repeat case_match. Qed.

Lemma guards_need_browser (env : Platform) (a : AppComponent) (c : CacheService) :
  _isBrowser a = false → redirectGuard a = false ∧ shareGuard env a c = false.
Proof. unfold redirectGuard, shareGuard. by intros ->. Qed.

(** ** Sessions outside a browser *)

Lemma server_handle (env : Platform) (e : Event) (w : World) :
  writesAnywhere e = false →
  _isBrowser (this w) = false → changeListeners w = 0%nat →
  _cacheService (handle env e w) = _cacheService w
  ∧ effects (handle env e w) = effects w
  ∧ changeListeners (handle env e w) = 0%nat.
Proof.
  intros Hw HB Hl. destruct e as [rd | cfg | m | v | acc]; try done; simpl.
  - unfold onNavigationEnd.
    destruct (enterRoute_rest rd w) as [Heff Hcache].
    assert (HB' : _isBrowser (this (enterRoute rd w)) = false).
    { by destruct (enterRoute_frame rd w) as (-> & _). }
    assert (Hl' : changeListeners (enterRoute rd w) = 0%nat).
    { unfold enterRoute. by repeat case_match. }
    destruct (guards_need_browser env _ (_cacheService (enterRoute rd w)) HB')
      as [Hr Hs].
    unfold navigationBranch. rewrite Hr, Hs.
    destruct (_isFirstNavigation (this (enterRoute rd w))); [|done].
    simpl. by rewrite increaseAppUsedCount_server.
  - by rewrite HB.
  - by rewrite Hl.
Qed.

(** X3. Outside a browser the component made by the constructor writes
    nothing to the store and calls neither the router nor the bottom sheet,
    whatever navigations, configuration changes and color-scheme changes it
    serves: the constructor reads nothing, [increaseAppUsedCount] returns at
    once and no listener is on the media query. *)
Theorem server_session_is_silent
    (env : Platform) (cfg : ConfigValues) (cache : CacheService)
    (es : list Event) :
  platformBrowser env = false →
  Forall (λ e, writesAnywhere e = false) es →
  _cacheService (runEvents env es (constructor env cfg cache)) = cache
  ∧ effects (runEvents env es (constructor env cfg cache)) = []
  ∧ _curVerAppUsedCount (this (constructor env cfg cache)) = Num 0
  ∧ _isAppUsedBefore (this (constructor env cfg cache)) = false.
Proof.
  intros HB Hes.
  assert (Hstart : constructor env cfg cache
                   = mkWorld (newAppComponent false) cache cfg 0 []).
  { unfold constructor. simpl. by rewrite HB. }
  rewrite Hstart. split; [|split; [|done]].
  - enough (Hgen : ∀ w, _isBrowser (this w) = false →
              changeListeners w = 0%nat →
              _cacheService (runEvents env es w) = _cacheService w) by
      by apply (Hgen (mkWorld (newAppComponent false) cache cfg 0 [])).
    induction Hes as [|e es He _ IH]; intros w Hb Hl; simpl; [done|].
    destruct (server_handle env e w He Hb Hl) as (Hc & _ & Hl').
    rewrite IH; [done| by rewrite handle_isBrowser | done].
  - enough (Hgen : ∀ w, _isBrowser (this w) = false →
              changeListeners w = 0%nat →
              effects (runEvents env es w) = effects w) by
      by apply (Hgen (mkWorld (newAppComponent false) cache cfg 0 [])).
    induction Hes as [|e es He _ IH]; intros w Hb Hl; simpl; [done|].
    destruct (server_handle env e w He Hb Hl) as (_ & Heff & Hl').
    rewrite IH; [done| by rewrite handle_isBrowser | done].
Qed.

(** ** The calls of a session *)

Lemma runEvents_effects (env : Platform) (es : list Event) (w : World) :
  effects w = [] →
  effects (runEvents env es w) = []
  ∨ _isFirstNavigation (this (runEvents env es w)) = false
    ∧ (effects (runEvents env es w) = [RouterNavigate ["/about"]]
       ∨ effects (runEvents env es w) = [BottomSheetOpen]).
Proof.
  enough (Hgen : ∀ w,
    (effects w = []
     ∨ _isFirstNavigation (this w) = false
       ∧ (effects w = [RouterNavigate ["/about"]]
          ∨ effects w = [BottomSheetOpen])) →
    effects (runEvents env es w) = []
    ∨ _isFirstNavigation (this (runEvents env es w)) = false
      ∧ (effects (runEvents env es w) = [RouterNavigate ["/about"]]
         ∨ effects (runEvents env es w) = [BottomSheetOpen])).
  { intros Hnil. apply Hgen. by left. }
  induction es as [|e es IH]; intros w0 Hinv; simpl; [done|].
  apply IH. destruct (isNavigationEnd e) eqn:Hnav.
  - destruct e as [rd| | | |]; try done. simpl.
    pose proof (onNavigationEnd_guard env rd w0) as Hdown.
    unfold onNavigationEnd in *. rewrite runBranch_effects.
    destruct (enterRoute_rest rd w0) as [-> _].
    destruct Hinv as [Hnil | [Hg Heff]].
    + rewrite Hnil. destruct (navigationBranch env (enterRoute rd w0))
        as [[]|]; auto.
    + assert (Hg' : _isFirstNavigation (this (enterRoute rd w0)) = false).
      { destruct (enterRoute_frame rd w0) as (_ & _ & _ & -> & _). done. }
      rewrite navigationBranch_after by done. auto.
  - destruct (handle_rest env e w0 Hnav) as (-> & _).
    destruct (handle_frame env e w0 Hnav) as (_ & _ & _ & -> & _). done.
Qed.

(** X4. A session calls the router or the bottom sheet at most once: its
    calls are none, or the one redirect to ['/about'], or the one opening of
    the sharing sheet, never both and never twice. *)
Theorem session_calls_at_most_once (s : Session) (cache : CacheService) :
  sessionEffects s cache = []
  ∨ sessionEffects s cache = [RouterNavigate ["/about"]]
  ∨ sessionEffects s cache = [BottomSheetOpen].
Proof.
  unfold sessionEffects, sessionEnd.
  destruct (runEvents_effects (s_env s) (s_events s)
              (constructor (s_env s) (s_config s) cache)) as [H | [_ [H | H]]];
    auto.
  unfold constructor, detectDarkTheme, detectDarkThemeChange, updateConfigValues.
  simpl. by repeat case_match.
Qed.

(** ** Becoming a returning installation *)





(** ** The share-prompt branch *)



(** ** Sessions in which the sharing sheet stays closed *)

Lemma shouldShow_answered
    (env : Platform) (a : AppComponent) (c : CacheService) :
  getItem_boolean c "socialSharingYesButtonPressed" = Some true
  ∨ getItem_boolean c "socialSharingNoButtonPressed" = Some true →
  shouldShowSocialSharingSheet env a c = false.
Proof.
  intros Hflag. unfold shouldShowSocialSharingSheet.
  destruct (_ || _); [done|].
  destruct Hflag as [-> | ->]; simpl; [done|].
  by destruct (truthy id _).
Qed.


(** A run through which the share guard stays false never opens the
    sheet. [Q] is what keeps the guard false. *)
Lemma runEvents_blocked (env : Platform) (Q : World → Prop) :
  (∀ w, Q w → shareGuard env (this w) (_cacheService w) = false) →
  (∀ e w, isNavigationEnd e = false → Q w → Q (handle env e w)) →
  (∀ rd w, Q w → Q (enterRoute rd w)) →
  (∀ b w, b ≠ Some SharePrompt → Q w → Q (runBranch b w)) →
  ∀ es w, Q w → BottomSheetOpen ∉ effects w →
    Q (runEvents env es w) ∧ (BottomSheetOpen ∉ effects (runEvents env es w)).
Proof.
  intros Hguard Hother Henter Hbranch.
  induction es as [|e es IH]; intros w HQ Hno; simpl; [done|].
  destruct (isNavigationEnd e) eqn:Hnav.
  - destruct e as [rd| | | |]; try done. simpl. unfold onNavigationEnd.
    pose proof (Henter rd w HQ) as HQ1.
    assert (Hb : navigationBranch env (enterRoute rd w) ≠ Some SharePrompt).
    { intros Hb. apply navigationBranch_share in Hb.
      by rewrite (Hguard _ HQ1) in Hb. }
    apply IH; [by apply Hbranch|].
    rewrite runBranch_effects. destruct (enterRoute_rest rd w) as [-> _].
    destruct (navigationBranch env (enterRoute rd w)) as [[]|]; try done.
    rewrite not_elem_of_cons. by split.
  - apply IH; [by apply Hother|].
    by destruct (handle_rest env e w Hnav) as (-> & _).
Qed.

Lemma constructor_rest
    (env : Platform) (cfg : ConfigValues) (cache : CacheService) :
  boolItems (_cacheService (constructor env cfg cache)) = boolItems cache
  ∧ numItems (_cacheService (constructor env cfg cache)) = numItems cache
  ∧ effects (constructor env cfg cache) = [].
Proof.
  unfold constructor, detectDarkTheme, detectDarkThemeChange, updateConfigValues.
  simpl. by repeat case_match.
Qed.


Lemma session_answered (s : Session) (cache : CacheService) :
  getItem_boolean cache "socialSharingYesButtonPressed" = Some true
  ∨ getItem_boolean cache "socialSharingNoButtonPressed" = Some true →
  (BottomSheetOpen ∉ sessionEffects s cache)
  ∧ (getItem_boolean (runSession s cache) "socialSharingYesButtonPressed"
     = Some true
     ∨ getItem_boolean (runSession s cache) "socialSharingNoButtonPressed"
       = Some true).
Proof.
  intros Hflag. unfold sessionEffects, sessionEnd, runSession.
  destruct (constructor_rest (s_env s) (s_config s) cache) as (Hb & _ & He).
  destruct (runEvents_blocked (s_env s)
    (λ w, getItem_boolean (_cacheService w) "socialSharingYesButtonPressed"
          = Some true
          ∨ getItem_boolean (_cacheService w) "socialSharingNoButtonPressed"
            = Some true)) with (es := s_events s)
      (w := constructor (s_env s) (s_config s) cache) as [HQ Hno]; try done.
  - intros w HQ. unfold shareGuard. rewrite shouldShow_answered by done.
    by rewrite andb_false_r.
  - intros e w Hnav [HQ | HQ];
      destruct (handle_rest (s_env s) e w Hnav) as (_ & _ & Hkeep & _); auto.
  - intros rd w HQ. by destruct (enterRoute_rest rd w) as [_ ->].
  - intros b w _ HQ. unfold getItem_boolean in *.
    by destruct (runBranch_rest b w) as [-> _].
  - unfold getItem_boolean in *. by rewrite Hb.
  - rewrite He. apply not_elem_of_nil.
Qed.

(** X7. Once the store holds a true answer to the sharing sheet (accepted
    or declined), no later session opens the sheet, however many sessions
    follow and whatever they serve, and the answer stays stored: the
    component never clears or overwrites it with false. *)
Theorem answered_sheet_stays_closed (ss : list Session) (cache : CacheService) :
  getItem_boolean cache "socialSharingYesButtonPressed" = Some true
  ∨ getItem_boolean cache "socialSharingNoButtonPressed" = Some true →
  (BottomSheetOpen ∉ sessionsEffects ss cache)
  ∧ (getItem_boolean (runSessions ss cache) "socialSharingYesButtonPressed"
     = Some true
     ∨ getItem_boolean (runSessions ss cache) "socialSharingNoButtonPressed"
       = Some true).
Proof.
  revert cache. induction ss as [|s ss IH]; intros cache Hflag; simpl.
  { split; [apply not_elem_of_nil | done]. }
  destruct (session_answered s cache Hflag) as [Hno Hflag'].
  destruct (IH _ Hflag') as [Hrest Hend].
  split; [|done]. rewrite not_elem_of_app. by split.
Qed.



(** ** The sections of the home page *)

Lemma runBranch_about (b : option Branch) (w : World) :
  _aboutPageNavigated (this (runBranch b w)) = _aboutPageNavigated (this w).
Proof.
  destruct b as [[]|]; simpl; rewrite ?increaseAppUsedCount_this; done.
Qed.

Lemma handle_about (env : Platform) (e : Event) (w : World) :
  _aboutPageNavigated (this w) = true →
  _aboutPageNavigated (this (handle env e w)) = true.
Proof.
  intros Ha. destruct (isNavigationEnd e) eqn:Hnav.
  - destruct e as [rd| | | |]; try done. simpl. unfold onNavigationEnd.
    rewrite runBranch_about. unfold enterRoute. simpl. by rewrite Ha.
  - by destruct (handle_rest env e w Hnav) as (_ & _ & _ & ->).
Qed.

Lemma runEvents_about (env : Platform) (es : list Event) (w : World) :
  _aboutPageNavigated (this w) = true →
  _aboutPageNavigated (this (runEvents env es w)) = true.
Proof.
  revert w. induction es as [|e es IH]; intros w Ha; simpl; [done|].
  apply IH. by apply handle_about.
Qed.

(** X9. Once a browser session has reached the about page, the about
    section of the home page is not shown again in that session, whatever
    follows: the flag set on the first arrival is never reset. *)
Theorem about_section_one_shot
    (env : Platform) (routeData : RouteData) (es : list Event) (w : World) :
  _isBrowser (this w) = true →
  pageType routeData = Some "about-page" →
  aboutSectionVisible
    (this (runEvents env (NavigationEnd routeData :: es) w)) = false.
Proof.
  intros HB Hpage. simpl. unfold aboutSectionVisible.
  rewrite runEvents_about; [by rewrite !andb_false_r|].
  unfold onNavigationEnd. rewrite runBranch_about.
  unfold enterRoute. rewrite Hpage.
  rewrite (bool_decide_eq_true_2 (Some "about-page" = Some "about-page")) by done.
  cbn [this on_this _isBrowser _aboutPageNavigated set_isHomePage].
  rewrite HB. by destruct (_aboutPageNavigated (this w)) eqn:Ha.
Qed.



(** ** The tracked page views *)

Lemma pageViewLog_after (env : Platform) (es : list Event) (w : World) :
  _isFirstNavigation (this w) = false →
  pageViewLog env es w
  = map (λ routeData,
           if truthy_string (pagePath routeData)
           then Some (pagePath routeData) else None) (navigations es).
Proof.
  revert w. induction es as [|e es IH]; intros w Hg; simpl; [done|].
  pose proof (handle_guard_false env e w Hg) as Hg'.
  destruct e as [rd| | | |]; simpl; rewrite IH by done; try done.
  unfold trackedUri. by rewrite Hg.
Qed.

(** X11. The first page view of a session is tracked without a uri; every
    later page view of the session is tracked with the path of its
    navigation, or without a uri when that path is empty. *)
Theorem page_view_uris
    (env : Platform) (cfg : ConfigValues) (cache : CacheService)
    (es : list Event) :
  pageViewLog env es (constructor env cfg cache)
  = match navigations es with
    | [] => []
    | _ :: later =>
        None :: map (λ routeData,
                       if truthy_string (pagePath routeData)
                       then Some (pagePath routeData) else None) later
    end.
Proof.
  pose proof (constructor_guard env cfg cache) as Hg.
  generalize dependent (constructor env cfg cache).
  induction es as [|e es IH]; intros w Hg; simpl; [done|].
  destruct (isNavigationEnd e) eqn:Hnav.
  - destruct e as [rd| | | |]; try done. simpl.
    rewrite pageViewLog_after by apply onNavigationEnd_guard.
    unfold trackedUri. by rewrite Hg.
  - assert (Hg' : _isFirstNavigation (this (handle env e w)) = true).
    { destruct (handle_frame env e w Hnav) as (_ & _ & _ & -> & _). done. }
    destruct e as [rd| | | |]; try done; by apply IH.
Qed.

(** ** The dark mode through sessions *)

Lemma setDarkMode_consistent (value : bool) (w : World) :
  themeConsistent (setDarkMode value w)
  ∧ _isDarkMode (this (setDarkMode value w)) = Some value.
Proof.
  unfold themeConsistent, setDarkMode, getItem_string. simpl.
  rewrite lookup_insert_eq. by destruct value.
Qed.

Lemma themeConsistent_frame (w w' : World) :
  _isDarkMode (this w') = _isDarkMode (this w) →
  _themeClass (this w') = _themeClass (this w) →
  getItem_string (_cacheService w') "isDarkMode"
  = getItem_string (_cacheService w) "isDarkMode" →
  themeConsistent w → themeConsistent w'.
Proof. unfold themeConsistent. by intros -> -> ->. Qed.

Lemma increaseAppUsedCount_isDarkMode (w : World) :
  getItem_string (_cacheService (increaseAppUsedCount w)) "isDarkMode"
  = getItem_string (_cacheService w) "isDarkMode".
Proof.
  unfold increaseAppUsedCount, getItem_string.
  repeat case_match; simpl; try done.
  - rewrite (lookup_insert_ne _ "appUsed") by done.
    by rewrite lookup_insert_ne by apply appUsedCountKey_not_isDarkMode.
  - by rewrite lookup_insert_ne by apply appUsedCountKey_not_isDarkMode.
Qed.

Lemma onNavigationEnd_theme (env : Platform) (routeData : RouteData) (w : World) :
  _isDarkMode (this (onNavigationEnd env routeData w)) = _isDarkMode (this w)
  ∧ _themeClass (this (onNavigationEnd env routeData w)) = _themeClass (this w)
  ∧ getItem_string (_cacheService (onNavigationEnd env routeData w)) "isDarkMode"
    = getItem_string (_cacheService w) "isDarkMode".
Proof.
  unfold onNavigationEnd.
  assert (Henter : _isDarkMode (this (enterRoute routeData w)) = _isDarkMode (this w)
                   ∧ _themeClass (this (enterRoute routeData w)) = _themeClass (this w)
                   ∧ _cacheService (enterRoute routeData w) = _cacheService w).
  { unfold enterRoute. by repeat case_match. }
  destruct Henter as (Hd & Ht & Hc).
  rewrite <- Hd, <- Ht, <- Hc.
  generalize (enterRoute routeData w). intros w1.
  pose proof (increaseAppUsedCount_isDarkMode
                (on_this (set_isFirstNavigation false) w1)) as Hinc.
  unfold getItem_string in *.
  destruct (navigationBranch env w1) as [[]|]; simpl;
    rewrite ?increaseAppUsedCount_this; repeat split; try done; exact Hinc.
Qed.

Lemma updateConfigValues_theme (w : World) :
  _isDarkMode (this (updateConfigValues w)) = _isDarkMode (this w)
  ∧ _themeClass (this (updateConfigValues w)) = _themeClass (this w).
Proof. unfold updateConfigValues. by repeat case_match. Qed.

(** Every handler keeps the persisted dark mode in step with the resolved
    one, and a resolved dark mode stays resolved. *)
Lemma handle_theme (env : Platform) (e : Event) (w : World) :
  themeConsistent w →
  themeConsistent (handle env e w)
  ∧ (is_Some (_isDarkMode (this w)) →
     is_Some (_isDarkMode (this (handle env e w)))).
Proof.
  intros Hinv. destruct e as [rd | cfg | m | v | acc]; simpl.
  - destruct (onNavigationEnd_theme env rd w) as (Hd & Ht & Hc).
    split; [by apply (themeConsistent_frame w) | by rewrite Hd].
  - destruct (_isBrowser (this w)); [|done].
    destruct (updateConfigValues_theme (set_config cfg w)) as (Hd & Ht).
    destruct (updateConfigValues_rest (set_config cfg w)) as (_ & Hc & _).
    split; [|by rewrite Hd].
    apply (themeConsistent_frame w); try done. by rewrite Hc.
  - destruct (changeListeners w) as [|n]; [done|]. simpl.
    destruct (setDarkMode_consistent m (Nat.iter n (setDarkMode m) w))
      as [Hc Hd].
    split; [exact Hc|]. intros _. eexists. exact Hd.
  - destruct (setDarkMode_consistent v w) as [Hc Hd].
    split; [exact Hc|]. intros _. eexists. exact Hd.
  - split; [|done]. apply (themeConsistent_frame w); try done.
    by destruct acc.
Qed.

Lemma runEvents_theme (env : Platform) (es : list Event) (w : World) :
  themeConsistent w →
  themeConsistent (runEvents env es w)
  ∧ (is_Some (_isDarkMode (this w)) →
     is_Some (_isDarkMode (this (runEvents env es w)))).
Proof.
  revert w. induction es as [|e es IH]; intros w Hinv; simpl; [done|].
  destruct (handle_theme env e w Hinv) as [Hinv' Hsome].
  destruct (IH _ Hinv') as [Hend Hsome']. auto.
Qed.

(** In a browser the constructor ends with [detectDarkTheme], run on the
    store it was given and the configured color mode. *)
Lemma constructor_as_detect
    (env : Platform) (cfg : ConfigValues) (cache : CacheService) :
  platformBrowser env = true →
  ∃ w, constructor env cfg cache = detectDarkTheme env w
       ∧ _colorMode (this w) = cfg_colorMode cfg
       ∧ _cacheService w = cache.
Proof.
  intros HB. unfold constructor. simpl. rewrite HB.
  eexists. split; [reflexivity|].
  match goal with
  | |- _colorMode (this (updateConfigValues ?w1)) = _ ∧ _ =>
      destruct (updateConfigValues_colorMode w1) as [Hmode _];
      destruct (updateConfigValues_rest w1) as (_ & Hc & _)
  end.
  by rewrite Hmode, Hc.
Qed.

Lemma detectDarkTheme_consistent (env : Platform) (w : World) :
  themeConsistent (detectDarkTheme env w)
  ∧ is_Some (_isDarkMode (this (detectDarkTheme env w))).
Proof.
  unfold detectDarkTheme, detectDarkThemeChange.
  destruct (prefersColorScheme env) as [mq|];
    [destruct (addEventListener mq)|];
    match goal with
    | |- context [setDarkMode ?b w] =>
        destruct (setDarkMode_consistent b w) as [Hc Hd]
    end; (split; [exact Hc|]);
    [ change (is_Some (_isDarkMode (this (setDarkMode
        (if colorModeIs "dark" (this w) then true
         else if colorModeIs "light" (this w) then false
         else match getItem_string (_cacheService w) "isDarkMode" with
              | Some s => bool_decide (s = "true")
              | None => true
              end) w)))) | | ];
    rewrite Hd; eauto.
Qed.

(** X12. At the end of every session a resolved dark mode is the one
    persisted under ["isDarkMode"] (as ['true'] or ['false']) and the one
    shown (theme class ['dark'] or empty); in a browser the dark mode is
    resolved from the construction on. *)
Theorem dark_mode_is_persisted (s : Session) (cache : CacheService) :
  themeConsistent (sessionEnd s cache)
  ∧ (platformBrowser (s_env s) = true →
     is_Some (_isDarkMode (this (sessionEnd s cache)))).
Proof.
  unfold sessionEnd.
  assert (Hstart : themeConsistent (constructor (s_env s) (s_config s) cache)
    ∧ (platformBrowser (s_env s) = true →
       is_Some (_isDarkMode (this (constructor (s_env s) (s_config s) cache))))).
  { destruct (platformBrowser (s_env s)) eqn:HB.
    - destruct (constructor_as_detect _ (s_config s) cache HB) as (w & -> & _).
      destruct (detectDarkTheme_consistent (s_env s) w). auto.
    - unfold constructor. simpl. rewrite HB. done. }
  destruct Hstart as [Hinv Hsome].
  destruct (runEvents_theme (s_env s) (s_events s) _ Hinv) as [Hend Hkeep].
  auto.
Qed.

Lemma no_override_default (cfg : ConfigValues) (a : AppComponent) :
  noColorModeOverride cfg → _colorMode a = cfg_colorMode cfg →
  colorModeIs "dark" a = false ∧ colorModeIs "light" a = false.
Proof.
  intros Hno Hmode. unfold colorModeIs. rewrite Hmode.
  destruct (cfg_colorMode cfg) as [m|] eqn:Hm; [|done].
  destruct (Hno m Hm) as [Hd Hl].
  rewrite !bool_decide_eq_false_2 by done. by rewrite andb_false_r.
Qed.

Lemma constructor_resolves
    (env : Platform) (cfg : ConfigValues) (cache : CacheService) :
  platformBrowser env = true → noColorModeOverride cfg →
  isDarkMode (this (constructor env cfg cache))
  = match getItem_string cache "isDarkMode" with
    | None => true
    | Some v => bool_decide (v = "true")
    end.
Proof.
  intros HB Hno.
  destruct (constructor_as_detect env cfg cache HB) as (w & -> & Hmode & Hc).
  destruct (no_override_default cfg (this w) Hno Hmode) as [Hd Hl].
  unfold detectDarkTheme. rewrite Hd, Hl, Hc. unfold detectDarkThemeChange.
  destruct (prefersColorScheme env) as [mq|];
    [destruct (addEventListener mq)|]; done.
Qed.

(** X13. Without a configured override, a browser session starts in the
    dark mode the store holds: dark when nothing is stored, dark exactly for
    the stored text ['true'] otherwise, so in the mode the previous session
    on that store ended in. The system preference plays no part at
    construction. *)
Theorem dark_mode_is_restored
    (env : Platform) (cfg : ConfigValues) :
  platformBrowser env = true →
  noColorModeOverride cfg →
  (∀ cache,
     isDarkMode (this (constructor env cfg cache))
     = match getItem_string cache "isDarkMode" with
       | None => true
       | Some v => bool_decide (v = "true")
       end)
  ∧ (∀ s cache b,
       _isDarkMode (this (sessionEnd s cache)) = Some b →
       isDarkMode (this (constructor env cfg (runSession s cache))) = b).
Proof.
  intros HB Hno. split; [intros; by apply constructor_resolves|].
  intros s cache b Hb. rewrite constructor_resolves by done.
  pose proof (runEvents_theme (s_env s) (s_events s)
                (constructor (s_env s) (s_config s) cache)) as Hrun.
  assert (Hinv : themeConsistent (sessionEnd s cache)).
  { unfold sessionEnd. apply Hrun.
    destruct (platformBrowser (s_env s)) eqn:HB'.
    - destruct (constructor_as_detect _ (s_config s) cache HB') as (w & -> & _).
      by destruct (detectDarkTheme_consistent (s_env s) w).
    - unfold constructor. simpl. rewrite HB'. done. }
  unfold themeConsistent in Hinv. rewrite Hb in Hinv.
  destruct Hinv as [Hstored _].
  change (runSession s cache) with (_cacheService (sessionEnd s cache)).
  rewrite Hstored. by destruct b.
Qed.

(** ** The head of the document *)

Lemma appTitleFull_not_empty : appTitleFull ≠ "".
Proof. unfold appTitleFull, appTitle. by destruct appName. Qed.

Lemma metaOr_not_empty (meta : option (gmap string string)) (key fallback : string) :
  fallback ≠ "" → metaOr meta key fallback ≠ "".
Proof.
  intros Hf. unfold metaOr. destruct meta as [m|]; [|done].
  destruct (m !! key) as [[|c v]|]; done.
Qed.

Lemma metaOr_missing (m : gmap string string) (key fallback : string) :
  m !! key = None ∨ m !! key = Some "" → metaOr (Some m) key fallback = fallback.
Proof. unfold metaOr. by intros [-> | ->]. Qed.

(** X14. After [updateMeta] the title, the canonical href and every [meta]
    element it manages depend on the route data of this navigation only,
    not on what the head held before: nothing of an earlier page is left,
    in particular no [robots] element of a page that asked for no indexing.
    The other [meta] elements are left as they were. *)
Theorem head_depends_on_route_only
    (pagePath : string) (meta : option (gmap string string)) (h h' : Head) :
  documentTitle (updateMeta pagePath meta h)
  = documentTitle (updateMeta pagePath meta h')
  ∧ canonicalHref (updateMeta pagePath meta h)
    = canonicalHref (updateMeta pagePath meta h')
  ∧ (∀ sel, sel ∈ managedTags →
       metaTags (updateMeta pagePath meta h) !! sel
       = metaTags (updateMeta pagePath meta h') !! sel)
  ∧ (∀ sel, sel ∉ managedTags →
       metaTags (updateMeta pagePath meta h) !! sel = metaTags h !! sel).
Proof.
  unfold updateMeta, managedTags.
  split; [by destruct (metaNoindex meta)|].
  split; [by destruct (metaNoindex meta)|]. split.
  - intros sel Hsel. rewrite !elem_of_cons, elem_of_nil in Hsel.
    destruct (metaNoindex meta); simpl;
      repeat (destruct Hsel as [-> | Hsel]; [by simplify_map_eq|]); done.
  - intros sel Hsel. rewrite !not_elem_of_cons in Hsel.
    destruct Hsel as (? & ? & ? & ? & ? & ? & ? & ? & _).
    destruct (metaNoindex meta); simpl; by simplify_map_eq.
Qed.

(** X15. After [updateMeta] the head is consistent: [og:url] is the
    canonical href, the absolute url of the page path; the Twitter title is
    the Open Graph title and the Twitter description is the Open Graph
    description; and a [robots] element is there, with ['noindex'], exactly
    when the route asks for it. *)
Theorem head_is_consistent
    (pagePath : string) (meta : option (gmap string string)) (h : Head) :
  let h' := updateMeta pagePath meta h in
  canonicalHref h' = Some (toAbsoluteUrl pagePath)
  ∧ metaTags h' !! inr "og:url" = canonicalHref h'
  ∧ is_Some (metaTags h' !! inl "twitter:title")
  ∧ metaTags h' !! inl "twitter:title" = metaTags h' !! inr "og:title"
  ∧ is_Some (metaTags h' !! inl "twitter:description")
  ∧ metaTags h' !! inl "twitter:description"
    = metaTags h' !! inr "og:description"
  ∧ metaTags h' !! inl "robots"
    = if metaNoindex meta then Some "noindex" else None.
Proof.
  unfold updateMeta.
  destruct (metaNoindex meta); simpl; repeat split; by simplify_map_eq.
Qed.

(** X16. [updateMeta] never sets an empty title: a route without a title
    of its own (no [meta], no [title] member, or an empty one) gets the
    application name followed by [" | Myanmar Tools"], and the social title
    falls back to the page title, so it is not empty either. *)
Theorem title_is_never_empty
    (pagePath : string) (meta : option (gmap string string)) (h : Head) :
  let h' := updateMeta pagePath meta h in
  documentTitle h' ≠ ""
  ∧ (∀ t, metaTags h' !! inr "og:title" = Some t → t ≠ "")
  ∧ (meta = None
     ∨ (∃ m, meta = Some m ∧ (m !! "title" = None ∨ m !! "title" = Some "")) →
     documentTitle h' = appName +:+ " | Myanmar Tools").
Proof.
  assert (Htitle : metaOr meta "title" appTitleFull ≠ "").
  { apply metaOr_not_empty, appTitleFull_not_empty. }
  unfold updateMeta.
  destruct (metaNoindex meta); simpl; (split; [exact Htitle|]);
    (split; [intros t Ht; simplify_map_eq; by apply metaOr_not_empty|]);
    (intros [-> | (m & -> & Hm)]; [done | by apply metaOr_missing]).
Qed.

End AppComponent.

(** ** Sharing from the about page *)

(** X17. Whatever the platform offers and however a native share settles,
    [openSharing] tracks exactly one share event and ends with the one
    thank-you message, also after a failed or cancelled native share; the
    Facebook dialog is opened exactly when there is no native share or it
    was rejected, an error is logged exactly when it was rejected, and the
    [socialSharing] member of the configuration is defined afterwards. *)
Theorem openSharing_outcomes
    (encodeURIComponent : string → string)
    (nativeShare : option AboutComponent.ShareOutcome)
    (c : AboutComponent.AppConfig) :
  let result := AboutComponent.openSharing encodeURIComponent nativeShare c in
  let calls := result.2 in
  length (List.filter AboutComponent.isShareEvent calls) = 1%nat
  ∧ length (List.filter AboutComponent.isThankYou calls) = 1%nat
  ∧ last calls = Some (AboutComponent.SnackBarOpen "Thank you for sharing 😄." 3000)
  ∧ List.filter AboutComponent.isWindowOpen calls
    = match nativeShare with
      | Some AboutComponent.Fulfilled => []
      | _ => [AboutComponent.WindowOpen
                (AboutComponent.facebookUrl encodeURIComponent
                   (AboutComponent.ensureSocialSharing c)) "Facebook"]
      end
  ∧ length (List.filter AboutComponent.isLogError calls)
    = match nativeShare with
      | Some (AboutComponent.Rejected _) => 1%nat
      | _ => 0%nat
      end
  ∧ is_Some (AboutComponent.socialSharing result.1).
Proof.
  destruct nativeShare as [[|err]|];
    destruct c as [ver appId [sharing|]]; simpl; repeat split; eauto.
Qed.

(** ** The development at work

    The component of version 3.3.4, with no sponsors configured, on
    concrete stores and platforms. *)

Example parseInt_digits : parseInt "12" = Num 12.
Proof. reflexivity. Qed.

Example parseInt_prefix : parseInt "  -7abc" = Num (-7).
Proof. reflexivity. Qed.

Example parseInt_sign_only : parseInt "+" = NaN.
Proof. reflexivity. Qed.

Example to_string_number : to_string (Num 120) = "120".
Proof. reflexivity. Qed.

Example to_string_NaN_stuck :
  parseInt (to_string (add NaN (Num 1))) = NaN.
Proof. reflexivity. Qed.



Lemma checkAppUsedBefore_spec_witness :
  let c := setItem_string (appUsedCountKey "2.0.0") "3" emptyCache in
  let a := componentWithCount (Sponsor := unit) (Num 0) in
  _isBrowser a = true
  ∧ checkAppUsedBefore a c = true
  ∧ checkAppUsedBefore a emptyCache = false.
Proof.
  intros c a.
  destruct (checkAppUsedBefore_spec a c) as (_ & Hiff & Hempty).
  split; [reflexivity|]. split.
  - apply (Hiff eq_refl). right; right. exists "2.0.0", "3".
    split; [|split; [reflexivity | discriminate]].
    unfold oldVersions. do 14 apply list_elem_of_further.
    apply list_elem_of_here.
  - exact (Hempty eq_refl).
Defined.

Lemma share_needs_five_uses_witness :
  let a := componentWithCount (Sponsor := unit) (Num 4) in
  lt (_curVerAppUsedCount a) (Num 5) = true
  ∧ shouldShowSocialSharingSheet onlineBrowser a emptyCache = false.
Proof.
  intros a. split; [reflexivity|].
  exact (share_needs_five_uses onlineBrowser a emptyCache eq_refl).
Defined.

Lemma share_never_after_response_witness :
  let a := componentWithCount (Sponsor := unit) (Num 100) in
  let c := setItem_boolean "socialSharingNoButtonPressed" true emptyCache in
  getItem_boolean c "socialSharingNoButtonPressed" = Some true
  ∧ shouldShowSocialSharingSheet onlineBrowser a c = false.
Proof.
  intros a c. split; [reflexivity|].
  exact (share_never_after_response onlineBrowser a c (or_intror eq_refl)).
Defined.



Lemma redirect_excludes_share_witness :
  let a := set_isAppUsedBefore true (componentWithCount (Sponsor := unit) (Num 0)) in
  let a7 := componentWithCount (Sponsor := unit) (Num 7) in
  redirectGuard a = true
  ∧ shouldShowSocialSharingSheet onlineBrowser a emptyCache = false
  ∧ shouldShowSocialSharingSheet onlineBrowser a7 emptyCache = true
  ∧ redirectGuard a7 && shareGuard onlineBrowser a7 emptyCache = false
  ∧ (5 ≤ 7)%Z.
Proof.
  intros a a7.
  destruct (redirect_excludes_share onlineBrowser a emptyCache)
    as (_ & _ & Hno & _).
  destruct (redirect_excludes_share onlineBrowser a7 emptyCache)
    as (Hexcl & _ & _ & _ & Hfive).
  split; [reflexivity|]. split; [exact (Hno eq_refl)|].
  split; [reflexivity|]. split; [exact Hexcl|].
  exact (Hfive 7 eq_refl eq_refl).
Defined.

Lemma interceptor_decides_once_witness :
  let es := [ NavigationEnd homePage; ColorSchemeChange true;
              NavigationEnd aboutPage; NavigationEnd homePage ] in
  let w0 := constructor "3.3.4" parseNoSponsors onlineBrowser noConfig emptyCache in
  branchLog "3.3.4" parseNoSponsors onlineBrowser es w0
  = [Some DefaultIncrement; None; None]
  ∧ _isFirstNavigation
      (this (runEvents "3.3.4" parseNoSponsors onlineBrowser es w0)) = false.
Proof.
  intros es w0.
  destruct (interceptor_decides_once "3.3.4" parseNoSponsors onlineBrowser
              noConfig emptyCache es) as (_ & _ & Hfirst & _).
  split; [reflexivity|].
  exact (proj2 (proj2 (Hfirst (Some DefaultIncrement) [None; None] eq_refl))).
Defined.

Lemma first_use_redirect_witness :
  let cache := setItem_string "appUsed" "true" emptyCache in
  let w := constructor "3.3.4" parseNoSponsors onlineBrowser noConfig cache in
  let w' := onNavigationEnd "3.3.4" onlineBrowser homePage w in
  _isBrowser (this w) = true
  ∧ pageType homePage = Some "home-page"
  ∧ _isFirstNavigation (this w) = true
  ∧ _curVerAppUsedCount (this w) = Num 0
  ∧ _isAppUsedBefore (this w) = true
  ∧ getItem_string (_cacheService w') (appUsedCountKey "3.3.4") = Some "1"
  ∧ effects w' = [RouterNavigate ["/about"]]
  ∧ sponsorSectionVisible
      (this (runEvents "3.3.4" parseNoSponsors onlineBrowser
               [NavigationEnd homePage] w')) = false.
Proof.
  intros cache w w'.
  destruct (first_use_redirect "3.3.4" parseNoSponsors onlineBrowser homePage w
              eq_refl eq_refl eq_refl eq_refl eq_refl)
    as (_ & Hstored & _ & Heffects & _ & Hsponsor).
  do 5 (split; [reflexivity|]).
  split; [exact Hstored|]. split; [exact Heffects|].
  exact (Hsponsor [NavigationEnd homePage]).
Defined.


(** With the override ['light'] configured the component still listens to
    the color-scheme signal, and a change to dark turns the dark mode on. *)
Lemma theme_override_live_change :
  let w0 :=
    constructor "3.3.4" parseNoSponsors onlineBrowser
      (configWithColorMode "light") emptyCache in
  _colorMode (this w0) = Some "light"
  ∧ isDarkMode (this w0) = false
  ∧ changeListeners w0 = 1%nat
  ∧ isDarkMode (this (handle "3.3.4" parseNoSponsors onlineBrowser
                        (ColorSchemeChange true) w0)) = true.
Proof. repeat split. Qed.

Lemma theme_override_initial_witness :
  let env :=
    {| platformBrowser := true;
       navigator := None;
       prefersColorScheme := Some {| matches := true; addEventListener := true |} |} in
  let cache := setItem_string "isDarkMode" "true" emptyCache in
  let w0 :=
    constructor "3.3.4" parseNoSponsors env (configWithColorMode "Light") cache in
  platformBrowser env = true
  ∧ cfg_colorMode (configWithColorMode "Light") = Some "Light"
  ∧ toLowerCase "Light" = "light"
  ∧ isDarkMode (this w0) = false
  ∧ getItem_string (_cacheService w0) "isDarkMode" = Some "false"
  ∧ changeListeners w0 = 1%nat
  ∧ isDarkMode (this (handle "3.3.4" parseNoSponsors env
                        (ColorSchemeChange true) w0)) = true.
Proof.
  intros env cache w0.
  destruct (theme_override_initial "3.3.4" parseNoSponsors env
              (configWithColorMode "Light") cache "Light" false
              eq_refl eq_refl eq_refl)
    as (Hdark & Hstored & Hlisten & Hchange).
  do 3 (split; [reflexivity|]).
  split; [exact Hdark|]. split; [exact Hstored|]. split; [exact Hlisten|].
  apply Hchange. intros Hzero. vm_compute in Hzero. discriminate Hzero.
Defined.


Lemma server_session_is_silent_witness :
  let cache := setItem_string (appUsedCountKey "3.3.4") "7" emptyCache in
  let es := [ NavigationEnd homePage; ConfigValueChanges noConfig;
              ColorSchemeChange true; NavigationEnd aboutPage ] in
  platformBrowser serverPlatform = false
  ∧ Forall (λ e, writesAnywhere e = false) es
  ∧ _cacheService
      (runEvents "3.3.4" parseNoSponsors serverPlatform es
         (constructor "3.3.4" parseNoSponsors serverPlatform noConfig cache))
    = cache
  ∧ effects
      (runEvents "3.3.4" parseNoSponsors serverPlatform es
         (constructor "3.3.4" parseNoSponsors serverPlatform noConfig cache))
    = [].
Proof.
  intros cache es.
  assert (Hes : Forall (λ e, writesAnywhere e = false) es).
  { repeat constructor. }
  destruct (server_session_is_silent "3.3.4" parseNoSponsors serverPlatform
              noConfig cache es eq_refl Hes) as (Hcache & Heff & _).
  split; [reflexivity|]. split; [exact Hes|]. split; [exact Hcache | exact Heff].
Defined.



Lemma answered_sheet_stays_closed_witness :
  let unanswered := setItem_string (appUsedCountKey "3.3.4") "20" emptyCache in
  let cache := setItem_boolean "socialSharingNoButtonPressed" true unanswered in
  getItem_boolean cache "socialSharingNoButtonPressed" = Some true
  ∧ sessionEffects "3.3.4" parseNoSponsors homeVisit unanswered = [BottomSheetOpen]
  ∧ (BottomSheetOpen
     ∉ sessionsEffects "3.3.4" parseNoSponsors [homeVisit; homeVisit; homeVisit]
         cache).
Proof.
  intros unanswered cache.
  destruct (answered_sheet_stays_closed "3.3.4" parseNoSponsors
              [homeVisit; homeVisit; homeVisit] cache (or_intror eq_refl))
    as [Hclosed _].
  split; [reflexivity|]. split; [reflexivity | exact Hclosed].
Defined.


Lemma about_section_one_shot_witness :
  let w := constructor "3.3.4" parseNoSponsors onlineBrowser noConfig emptyCache in
  _isBrowser (this w) = true
  ∧ pageType aboutPage = Some "about-page"
  ∧ aboutSectionVisible
      (this (runEvents "3.3.4" parseNoSponsors onlineBrowser
               [NavigationEnd homePage] w)) = true
  ∧ aboutSectionVisible
      (this (runEvents "3.3.4" parseNoSponsors onlineBrowser
               [NavigationEnd aboutPage; NavigationEnd homePage] w)) = false.
Proof.
  intros w.
  split; [reflexivity|]. split; [reflexivity|]. split; [reflexivity|].
  exact (about_section_one_shot "3.3.4" parseNoSponsors onlineBrowser aboutPage
           [NavigationEnd homePage] w eq_refl eq_refl).
Defined.


Lemma dark_mode_is_persisted_witness :
  let s :=
    {| s_env := onlineBrowser; s_config := noConfig;
       s_events := [NavigationEnd homePage; SetIsDarkMode false] |} in
  platformBrowser (s_env s) = true
  ∧ themeConsistent (sessionEnd "3.3.4" parseNoSponsors s emptyCache)
  ∧ is_Some (_isDarkMode (this (sessionEnd "3.3.4" parseNoSponsors s emptyCache)))
  ∧ getItem_string (runSession "3.3.4" parseNoSponsors s emptyCache) "isDarkMode"
    = Some "false".
Proof.
  intros s.
  destruct (dark_mode_is_persisted "3.3.4" parseNoSponsors s emptyCache)
    as [Hcons Hsome].
  split; [reflexivity|]. split; [exact Hcons|].
  split; [exact (Hsome eq_refl) | reflexivity].
Defined.

Lemma dark_mode_is_restored_witness :
  let s :=
    {| s_env := onlineBrowser; s_config := noConfig;
       s_events := [NavigationEnd homePage; SetIsDarkMode false] |} in
  platformBrowser onlineBrowser = true
  ∧ noColorModeOverride noConfig
  ∧ isDarkMode
      (this (constructor "3.3.4" parseNoSponsors onlineBrowser noConfig emptyCache))
    = true
  ∧ _isDarkMode (this (sessionEnd "3.3.4" parseNoSponsors s emptyCache))
    = Some false
  ∧ isDarkMode
      (this (constructor "3.3.4" parseNoSponsors onlineBrowser noConfig
               (runSession "3.3.4" parseNoSponsors s emptyCache)))
    = false.
Proof.
  intros s.
  assert (Hno : noColorModeOverride noConfig).
  { intros m Hm. discriminate Hm. }
  destruct (dark_mode_is_restored "3.3.4" parseNoSponsors onlineBrowser noConfig
              eq_refl Hno) as [Hstart Hnext].
  split; [reflexivity|]. split; [exact Hno|].
  split; [exact (Hstart emptyCache)|]. split; [reflexivity|].
  exact (Hnext s emptyCache false eq_refl).
Defined.

Lemma head_depends_on_route_only_witness :
  let stale :=
    mkHead "Privacy" (Some "https://example.org/privacy")
      (<[inl "robots" := "noindex"]> (<[inl "viewport" := "width=device-width"]> ∅)) in
  let h := updateMeta "Converter" "Converts Zawgyi and Unicode"
             (String.append "https://example.org") "/" None stale in
  (inl "robots" ∈ managedTags)
  ∧ (inl "viewport" ∉ managedTags)
  ∧ metaTags h !! inl "robots" = None
  ∧ metaTags h !! inl "viewport" = Some "width=device-width"
  ∧ canonicalHref h = Some "https://example.org/".
Proof.
  intros stale h.
  destruct (head_depends_on_route_only "Converter" "Converts Zawgyi and Unicode"
              (String.append "https://example.org") "/" None stale
              (mkHead "" None ∅)) as (_ & Hhref & Hmanaged & Hother).
  assert (Hin : inl "robots" ∈ managedTags).
  { unfold managedTags. do 3 apply list_elem_of_further. apply list_elem_of_here. }
  assert (Hout : inl "viewport" ∉ managedTags).
  { unfold managedTags. rewrite !not_elem_of_cons.
    repeat (split; [discriminate|]). apply not_elem_of_nil. }
  split; [exact Hin|]. split; [exact Hout|]. split.
  - exact (Hmanaged _ Hin).
  - split; [exact (Hother _ Hout) | exact Hhref].
Defined.

Lemma title_is_never_empty_witness :
  let untitled : gmap string string := <["description" := "About"]> ∅ in
  let h := updateMeta "Converter" "Converts Zawgyi and Unicode"
             (String.append "https://example.org") "/about" (Some untitled)
             (mkHead "" None ∅) in
  untitled !! "title" = None
  ∧ documentTitle h = "Converter | Myanmar Tools"
  ∧ metaTags h !! inr "og:title" = Some "Converter | Myanmar Tools"
  ∧ "Converter | Myanmar Tools" ≠ "".
Proof.
  intros untitled h.
  destruct (title_is_never_empty "Converter" "Converts Zawgyi and Unicode"
              (String.append "https://example.org") "/about" (Some untitled)
              (mkHead "" None ∅)) as (_ & Hsocial & Hfallback).
  split; [reflexivity|]. split.
  - apply Hfallback. right. exists untitled. split; [reflexivity|]. by left.
  - split; [reflexivity|]. exact (Hsocial _ eq_refl).
Defined.
